(** * Storybook backend: the story renderer and the story endpoints

    A shallow embedding of [backend/server.py]: the [Story] and
    [StoryCreate] models, [generate_story_content], and the handlers
    [create_story] and [get_story] over the [db.stories] collection; then
    the [StatusCheck] models and the handlers [create_status_check],
    [get_status_checks] and [get_all_stories].

    Python values are modelled as follows.
    - [str]  : a list of Unicode code points ([pystr]); the literals of the
               source are ASCII and are written [lit "..."].
    - [int]  : [Z]; formatting an int in an f-string gives its decimal
               rendering ([str_of_int]) or raises ([format_int]).
    - [datetime] : [Z], the microseconds since the epoch.
    - [dict] : a finite map ([gmap]) from [str] keys.
    - [None] : [None] of an [option] for the fields declared [str = None]. *)

From Stdlib Require Import ZArith NArith List Ascii String DecimalString.
From stdpp Require Import gmap list fin_maps.

Local Open Scope N_scope.

(** ** Python strings *)

Abbreviation pystr := (list N).

(** A string literal of the source, as code points. *)
Definition lit (s : string) : pystr :=
  map N_of_ascii (list_ascii_of_string s).

(** The line break inside the triple-quoted template. *)
Definition NL : pystr := [10].

(** The text an f-string produces for an [int]: its decimal digits, with a
    leading minus sign for a negative number. Whether the conversion is
    performed at all is [format_int] below. *)
Definition str_of_int (z : Z) : pystr :=
  lit (NilZero.string_of_int (Z.to_int z)).

(** The interpreter's default limit on the number of digits of an [int]
    that is converted to text. *)
Definition int_max_str_digits : Z := 4300.

(** Formatting an [int] as the interpreter performs it: the conversion
    raises ValueError ([None]) when the number has more than
    [int_max_str_digits] decimal digits, the sign not counted, that is when
    its absolute value reaches [10 ^ int_max_str_digits]. *)
Definition format_int (z : Z) : option pystr :=
  if (10 ^ int_max_str_digits <=? Z.abs z)%Z then None
  else Some (str_of_int z).

(** [c.isspace()]: the code points Python treats as whitespace. *)
Definition isspace (c : N) : bool :=
  (9 <=? c) && (c <=? 13) || (28 <=? c) && (c <=? 32)
  || (c =? 133) || (c =? 160) || (c =? 5760)
  || (8192 <=? c) && (c <=? 8202)
  || (c =? 8232) || (c =? 8233) || (c =? 8239) || (c =? 8287)
  || (c =? 12288).

(** [s.lstrip()], [s.rstrip()], [s.strip()] with no argument. *)
Fixpoint lstrip (s : pystr) : pystr :=
  match s with
  | [] => []
  | c :: s' => if isspace c then lstrip s' else s
  end.

Definition rstrip (s : pystr) : pystr := rev (lstrip (rev s)).

Definition strip (s : pystr) : pystr := rstrip (lstrip s).

(** [sep.join(xs)]. *)
Fixpoint join (sep : pystr) (xs : list pystr) : pystr :=
  match xs with
  | [] => []
  | [x] => x
  | x :: rest => x ++ sep ++ join sep rest
  end.

(** [s.startswith(p)]. *)
Fixpoint startswith (p s : pystr) : bool :=
  match p, s with
  | [], _ => true
  | _ :: _, [] => false
  | a :: p', b :: s' => (a =? b) && startswith p' s'
  end.

(** [s.endswith(p)]. *)
Definition endswith (p s : pystr) : bool := startswith (rev p) (rev s).

(** [sub in s]: [sub] occurs in [s] as a contiguous substring. *)
Fixpoint contains (sub s : pystr) : bool :=
  startswith sub s ||
  match s with
  | [] => false
  | _ :: s' => contains sub s'
  end.

(** [d.get(k, dflt)] on a dict with string keys and values. *)
Definition dict_get (d : gmap (list N) (list N)) (k dflt : pystr) : pystr :=
  default dflt (d !! k).

(** ** The models *)

(** A [datetime], in microseconds since the epoch. The program only stores
    and returns these values. *)
Definition datetime := Z.

Module StoryCreate.
Record t := mk {
  kid_name : pystr;
  kid_age : Z;
  kid_photo : option pystr;
  theme : pystr;
  story_type : pystr;
  length : pystr;
  special_ingredients : list pystr
}.
End StoryCreate.

Module Story.
Record t := mk {
  id : pystr;
  kid_name : pystr;
  kid_age : Z;
  kid_photo : option pystr;
  theme : pystr;
  story_type : pystr;
  length : pystr;
  special_ingredients : list pystr;
  created_at : datetime;
  story_content : option pystr
}.
End Story.

(** ** The renderer *)

Definition theme_settings : gmap (list N) (list N) :=
  <[lit "fairy" := lit "in an enchanted fairy kingdom with magical powers"]>
  (<[lit "dinosaur" := lit "in prehistoric times with friendly dinosaurs"]>
  (<[lit "castle" := lit "in a grand castle with brave knights and wise princesses"]>
  (<[lit "ocean" := lit "in the depths of the ocean with colorful sea creatures"]>
  (<[lit "space" := lit "on an exciting journey through the stars and planets"]>
  (<[lit "forest" := lit "deep in a magical forest filled with talking animals"]>
   ∅))))).

Definition length_pages : gmap (list N) (list N) :=
  <[lit "long" := lit "an epic and detailed"]>
  (<[lit "medium" := lit "a wonderful"]>
  (<[lit "short" := lit "a quick but exciting"]>
   ∅)).

(** The f-string of [generate_story_content], before [strip]. *)
Definition story_template (kid_name : pystr) (kid_age : Z)
    (setting story_length_desc ingredients_text story_type : pystr) : pystr :=
  NL ++
  lit "    Once upon a time, there was a brave and curious child named "
    ++ kid_name ++ lit " who was " ++ str_of_int kid_age
    ++ lit " years old." ++ NL ++
  lit "    " ++ NL ++
  lit "    One magical day, " ++ kid_name ++ lit " found themselves "
    ++ setting ++ lit ". This was the beginning of " ++ story_length_desc
    ++ lit " adventure!" ++ NL ++
  lit "    " ++ NL ++
  lit "    Along the way, " ++ kid_name ++ lit " discovered "
    ++ ingredients_text
    ++ lit " that would help them on their journey." ++ NL ++
  lit "    " ++ NL ++
  lit "    This " ++ story_type
    ++ lit " story was filled with wonder, excitement, and magical moments that "
    ++ kid_name ++ lit " would remember forever!" ++ NL ++
  lit "    " ++ NL ++
  lit "    The End." ++ NL ++
  lit "    ".

Definition generate_story_content (story : Story.t) : pystr :=
  let setting :=
    dict_get theme_settings (Story.theme story) (lit "in a magical world") in
  let ingredients_text :=
    match Story.special_ingredients story with
    | [] => lit "special surprises"
    | _ :: _ => join (lit ", ") (Story.special_ingredients story)
    end in
  let story_length_desc :=
    dict_get length_pages (Story.length story) (lit "an amazing") in
  let story_content :=
    story_template (Story.kid_name story) (Story.kid_age story)
      setting story_length_desc ingredients_text (Story.story_type story) in
  strip story_content.

(** A call of [generate_story_content] as the interpreter runs it. The one
    operation of the body that can raise is the formatting of
    [story.kid_age] in the f-string; when it does not, the call returns the
    text above. *)
Definition generate_story_content_call (story : Story.t) : option pystr :=
  _ ← format_int (Story.kid_age story);
  Some (generate_story_content story).

(** The rendered text written out: the template without the line break and
    indentation before its first word and after its last full stop. *)
Definition story_text (kid_name : pystr) (kid_age : Z)
    (setting story_length_desc ingredients_text story_type : pystr) : pystr :=
  lit "Once upon a time, there was a brave and curious child named "
    ++ kid_name ++ lit " who was " ++ str_of_int kid_age
    ++ lit " years old." ++ NL ++
  lit "    " ++ NL ++
  lit "    One magical day, " ++ kid_name ++ lit " found themselves "
    ++ setting ++ lit ". This was the beginning of " ++ story_length_desc
    ++ lit " adventure!" ++ NL ++
  lit "    " ++ NL ++
  lit "    Along the way, " ++ kid_name ++ lit " discovered "
    ++ ingredients_text
    ++ lit " that would help them on their journey." ++ NL ++
  lit "    " ++ NL ++
  lit "    This " ++ story_type
    ++ lit " story was filled with wonder, excitement, and magical moments that "
    ++ kid_name ++ lit " would remember forever!" ++ NL ++
  lit "    " ++ NL ++
  lit "    The End.".

(** The three values [generate_story_content] resolves before formatting. *)
Definition setting_of (story : Story.t) : pystr :=
  dict_get theme_settings (Story.theme story) (lit "in a magical world").

Definition ingredients_text_of (story : Story.t) : pystr :=
  match Story.special_ingredients story with
  | [] => lit "special surprises"
  | _ :: _ => join (lit ", ") (Story.special_ingredients story)
  end.

Definition story_length_desc_of (story : Story.t) : pystr :=
  dict_get length_pages (Story.length story) (lit "an amazing").

(** ** Documents, models and the store *)

(** The values that occur in the dicts of the program. *)
Inductive pyval :=
  | VNone
  | VStr (s : pystr)
  | VInt (z : Z)
  | VStrList (l : list pystr)
  | VDatetime (t : datetime).

#[global] Instance pyval_eq_dec : EqDecision pyval.
Proof. solve_decision. Defined.

(** A value declared [str = None]. *)
Definition of_opt_str (o : option pystr) : pyval :=
  match o with
  | None => VNone
  | Some s => VStr s
  end.

(** What the store keeps of a value: a datetime is kept to the millisecond,
    every other value as it is. *)
Definition bson_datetime (t : datetime) : datetime := (1000 * (t / 1000))%Z.

Definition bson_value (v : pyval) : pyval :=
  match v with
  | VDatetime t => VDatetime (bson_datetime t)
  | _ => v
  end.

Definition bson_document (doc : gmap (list N) pyval) : gmap (list N) pyval :=
  bson_value <$> doc.

(** [story_data.dict()] for a [StoryCreate]. *)
Definition StoryCreate_dict (s : StoryCreate.t) : gmap (list N) pyval :=
  list_to_map [
    (lit "kid_name", VStr (StoryCreate.kid_name s));
    (lit "kid_age", VInt (StoryCreate.kid_age s));
    (lit "kid_photo", of_opt_str (StoryCreate.kid_photo s));
    (lit "theme", VStr (StoryCreate.theme s));
    (lit "story_type", VStr (StoryCreate.story_type s));
    (lit "length", VStr (StoryCreate.length s));
    (lit "special_ingredients", VStrList (StoryCreate.special_ingredients s))
  ].

(** [story_obj.dict()] for a [Story]. *)
Definition Story_dict (s : Story.t) : gmap (list N) pyval :=
  list_to_map [
    (lit "id", VStr (Story.id s));
    (lit "kid_name", VStr (Story.kid_name s));
    (lit "kid_age", VInt (Story.kid_age s));
    (lit "kid_photo", of_opt_str (Story.kid_photo s));
    (lit "theme", VStr (Story.theme s));
    (lit "story_type", VStr (Story.story_type s));
    (lit "length", VStr (Story.length s));
    (lit "special_ingredients", VStrList (Story.special_ingredients s));
    (lit "created_at", VDatetime (Story.created_at s));
    (lit "story_content", of_opt_str (Story.story_content s))
  ].

(** Reading one keyword argument when a [Story] is built from the dict [d]
    (a double-star call). The conversions the model performs between types
    (a numeric string given for an [int] field, a number given for a [str]
    field) are left out: they concern documents no endpoint writes, and no
    statement below depends on them. [None] stands for the
    validation error of the model: a required field that is missing, or a
    value of another type than the field declares. *)
Definition required_str (d : gmap (list N) pyval) (k : pystr) : option pystr :=
  match d !! k with
  | Some (VStr s) => Some s
  | _ => None
  end.

Definition required_int (d : gmap (list N) pyval) (k : pystr) : option Z :=
  match d !! k with
  | Some (VInt z) => Some z
  | _ => None
  end.

(** A field declared [str = None]. *)
Definition optional_str (d : gmap (list N) pyval) (k : pystr)
    : option (option pystr) :=
  match d !! k with
  | None | Some VNone => Some None
  | Some (VStr s) => Some (Some s)
  | _ => None
  end.

(** A field declared [List[str] = []]. *)
Definition str_list_or_empty (d : gmap (list N) pyval) (k : pystr)
    : option (list pystr) :=
  match d !! k with
  | None => Some []
  | Some (VStrList l) => Some l
  | _ => None
  end.

(** A [str] field with a default factory. *)
Definition str_or_default (d : gmap (list N) pyval) (k dflt : pystr)
    : option pystr :=
  match d !! k with
  | None => Some dflt
  | Some (VStr s) => Some s
  | _ => None
  end.

(** A [datetime] field with a default factory. *)
Definition datetime_or_default (d : gmap (list N) pyval) (k : pystr)
    (dflt : datetime) : option datetime :=
  match d !! k with
  | None => Some dflt
  | Some (VDatetime t) => Some t
  | _ => None
  end.

(** The [Story] built from the keyword arguments [d]. [uuid] is what [str(uuid.uuid4())] returns and [now] what
    [datetime.utcnow()] returns when the default factories are called. Keys
    of [d] that are not fields of the model are ignored. *)
Definition Story_init (uuid : pystr) (now : datetime)
    (d : gmap (list N) pyval) : option Story.t :=
  id ← str_or_default d (lit "id") uuid;
  kid_name ← required_str d (lit "kid_name");
  kid_age ← required_int d (lit "kid_age");
  kid_photo ← optional_str d (lit "kid_photo");
  theme ← required_str d (lit "theme");
  story_type ← required_str d (lit "story_type");
  length ← required_str d (lit "length");
  special_ingredients ← str_list_or_empty d (lit "special_ingredients");
  created_at ← datetime_or_default d (lit "created_at") now;
  story_content ← optional_str d (lit "story_content");
  Some (Story.mk id kid_name kid_age kid_photo theme story_type length
          special_ingredients created_at story_content).

(** [story_obj.story_content = story_content]. *)
Definition set_story_content (s : Story.t) (c : pystr) : Story.t :=
  Story.mk (Story.id s) (Story.kid_name s) (Story.kid_age s)
    (Story.kid_photo s) (Story.theme s) (Story.story_type s)
    (Story.length s) (Story.special_ingredients s) (Story.created_at s)
    (Some c).

(** The database [db]: its two collections, each the list of its documents
    in insertion order. *)
Record Db := mkDb {
  status_checks : list (gmap (list N) pyval);
  stories : list (gmap (list N) pyval)
}.

(** A handler runs against the database; [None] is a raised exception. *)
Definition Handler (A : Type) : Type := Db -> option (A * Db).

#[global] Instance Handler_ret : MRet Handler :=
  fun A a db => Some (a, db).

#[global] Instance Handler_bind : MBind Handler :=
  fun A B f m db =>
    match m db with
    | Some (a, db') => f a db'
    | None => None
    end.

(** A constructor call that may raise, inside a handler. *)
Definition validated {A} (o : option A) : Handler A :=
  fun db => match o with Some a => Some (a, db) | None => None end.

(** [db.stories.insert_one(doc)], when the store accepts the document: it
    is appended as the store keeps it. *)
Definition stories_insert_one (doc : gmap (list N) pyval) : Handler unit :=
  fun db =>
    Some (tt, mkDb (status_checks db) (stories db ++ [bson_document doc])).

(** [db.stories.find_one({"id": story_id})]: the first document whose [id]
    is [story_id], or [None]. The store applies the filter to the elements
    of an array as well; [filter_matches] below is that wider test, and the
    statements about arbitrary collections exclude documents that pass it
    through an array. *)
Definition matches_id (story_id : pystr) (doc : gmap (list N) pyval) : bool :=
  bool_decide (doc !! lit "id" = Some (VStr story_id)).

(** The documents the store selects for the filter [{"id": story_id}]: the
    [id] is that string, or an array with that string among its elements. *)
Definition filter_matches (story_id : pystr) (doc : gmap (list N) pyval)
    : Prop :=
  match doc !! lit "id" with
  | Some (VStr s) => s = story_id
  | Some (VStrList l) => In story_id l
  | _ => False
  end.

Definition stories_find_one (story_id : pystr)
    : Handler (option (gmap (list N) pyval)) :=
  fun db => Some (find (matches_id story_id) (stories db), db).

(** [not story] for the result of [find_one]: [None] and the empty dict are
    falsy. *)
Definition py_not (story : option (gmap (list N) pyval)) : bool :=
  match story with
  | None => true
  | Some d => bool_decide (d = ∅)
  end.

(** ** The story endpoints *)

(** The age of a request reaches the handler through the JSON decoder, which
    applies the interpreter's digit limit itself, so that formatting it does
    not raise here: the handler takes the rendered text directly. *)
Definition create_story (uuid : pystr) (now : datetime)
    (story_data : StoryCreate.t) : Handler (gmap (list N) pyval) :=
  let story_dict := StoryCreate_dict story_data in
  story_obj ← validated (Story_init uuid now story_dict);
  let story_content := generate_story_content story_obj in
  let story_obj := set_story_content story_obj story_content in
  _ ← stories_insert_one (Story_dict story_obj);
  mret (list_to_map [
    (lit "id", VStr (Story.id story_obj));
    (lit "message", VStr (lit "Story created successfully"));
    (lit "story_content", VStr story_content)
  ] : gmap (list N) pyval).

(** What [get_story] returns: the pair of an error dict and a number, or a
    [Story]. *)
Inductive get_story_result :=
  | ErrorPair (body : gmap (list N) pyval) (code : Z)
  | FoundStory (s : Story.t).

Definition get_story (uuid : pystr) (now : datetime) (story_id : pystr)
    : Handler get_story_result :=
  story ← stories_find_one story_id;
  if py_not story then
    mret (ErrorPair {[ lit "error" := VStr (lit "Story not found") ]} 404%Z)
  else
    s ← validated (Story_init uuid now (default ∅ story));
    mret (FoundStory s).

(** ** What the transport answers *)

(** No route of the source is registered with a [status_code] and no
    handler builds a response object, so a handler that returns is answered
    with status 200, whatever the value it returns, and its value is sent
    as the body; a handler that raises is answered with status 500. *)
Definition response_status {A} (outcome : option (A * Db)) : Z :=
  match outcome with
  | Some _ => 200%Z
  | None => 500%Z
  end.

(** ** Values used in the statements below *)

(** A story as the store hands it back: its creation time is kept to the
    millisecond. *)
Definition stored_story (s : Story.t) : Story.t :=
  Story.mk (Story.id s) (Story.kid_name s) (Story.kid_age s)
    (Story.kid_photo s) (Story.theme s) (Story.story_type s)
    (Story.length s) (Story.special_ingredients s)
    (bson_datetime (Story.created_at s)) (Story.story_content s).


(** What [create_story] builds from a request before rendering. *)
Definition story_of_request (uuid : pystr) (now : datetime)
    (r : StoryCreate.t) : Story.t :=
  Story.mk uuid (StoryCreate.kid_name r) (StoryCreate.kid_age r)
    (StoryCreate.kid_photo r) (StoryCreate.theme r)
    (StoryCreate.story_type r) (StoryCreate.length r)
    (StoryCreate.special_ingredients r) now None.

(** A record with the six fields the renderer reads; the other four are
    given fixed values. Used for the concrete instances below. *)
Definition sample_story (kid_name : pystr) (kid_age : Z)
    (theme story_type length : pystr) (ingredients : list pystr) : Story.t :=
  Story.mk (lit "0f8fad5b-d9cb-469f-a165-70867728950e") kid_name kid_age None
    theme story_type length ingredients 0%Z None.

(** The request of the API test. *)
Definition test_request : StoryCreate.t :=
  StoryCreate.mk (lit "Test Kid") 5 (Some (lit "data:image/png;base64,iVBORw0KGgo="))
    (lit "forest") (lit "adventure") (lit "short")
    [lit "Magic spells"; lit "Talking animals"].

(** ** The status models and the listing endpoints *)

Module StatusCheckCreate.
Record t := mk {
  client_name : pystr
}.
End StatusCheckCreate.

Module StatusCheck.
Record t := mk {
  id : pystr;
  client_name : pystr;
  timestamp : datetime
}.
End StatusCheck.

(** [input.dict()] for a [StatusCheckCreate]. *)
Definition StatusCheckCreate_dict (c : StatusCheckCreate.t)
    : gmap (list N) pyval :=
  list_to_map [ (lit "client_name", VStr (StatusCheckCreate.client_name c)) ].

(** [status_obj.dict()] for a [StatusCheck]. *)
Definition StatusCheck_dict (c : StatusCheck.t) : gmap (list N) pyval :=
  list_to_map [
    (lit "id", VStr (StatusCheck.id c));
    (lit "client_name", VStr (StatusCheck.client_name c));
    (lit "timestamp", VDatetime (StatusCheck.timestamp c))
  ].

(** The [StatusCheck] built from the keyword arguments [d]; [uuid] and [now]
    are what the two default factories return when they are called. *)
Definition StatusCheck_init (uuid : pystr) (now : datetime)
    (d : gmap (list N) pyval) : option StatusCheck.t :=
  id ← str_or_default d (lit "id") uuid;
  client_name ← required_str d (lit "client_name");
  timestamp ← datetime_or_default d (lit "timestamp") now;
  Some (StatusCheck.mk id client_name timestamp).

(** [db.status_checks.insert_one(doc)], when the store accepts the
    document. *)
Definition status_checks_insert_one (doc : gmap (list N) pyval)
    : Handler unit :=
  fun db =>
    Some (tt, mkDb (status_checks db ++ [bson_document doc]) (stories db)).

(** [db.stories.find().to_list(n)] and [db.status_checks.find().to_list(n)]:
    the first [n] documents of the collection. *)
Definition stories_find_to_list (n : nat)
    : Handler (list (gmap (list N) pyval)) :=
  fun db => Some (take n (stories db), db).

Definition status_checks_find_to_list (n : nat)
    : Handler (list (gmap (list N) pyval)) :=
  fun db => Some (take n (status_checks db), db).

(** The list comprehension that builds one model per document of [docs]:
    the documents are converted from left to right and the first one that is rejected
    raises. [uuid i] and [now i] are what the default factories return
    while the document at position [i] is converted. *)
Fixpoint init_each {A} (init : pystr -> datetime -> gmap (list N) pyval -> option A)
    (uuid : nat -> pystr) (now : nat -> datetime) (i : nat)
    (docs : list (gmap (list N) pyval)) : option (list A) :=
  match docs with
  | [] => Some []
  | doc :: docs' =>
      x ← init (uuid i) (now i) doc;
      xs ← init_each init uuid now (S i) docs';
      Some (x :: xs)
  end.

Definition create_status_check (uuid : pystr) (now : datetime)
    (input : StatusCheckCreate.t) : Handler StatusCheck.t :=
  let status_dict := StatusCheckCreate_dict input in
  status_obj ← validated (StatusCheck_init uuid now status_dict);
  _ ← status_checks_insert_one (StatusCheck_dict status_obj);
  mret status_obj.

Definition get_status_checks (uuid : nat -> pystr) (now : nat -> datetime)
    : Handler (list StatusCheck.t) :=
  status_checks ← status_checks_find_to_list 1000;
  validated (init_each StatusCheck_init uuid now 0 status_checks).

Definition get_all_stories (uuid : nat -> pystr) (now : nat -> datetime)
    : Handler (list Story.t) :=
  stories ← stories_find_to_list 1000;
  validated (init_each Story_init uuid now 0 stories).

(** A status check as the store hands it back. *)
Definition stored_status_check (c : StatusCheck.t) : StatusCheck.t :=
  StatusCheck.mk (StatusCheck.id c) (StatusCheck.client_name c)
    (bson_datetime (StatusCheck.timestamp c)).

(** ** Databases written through the endpoints *)

(** Every document of [db.stories] is the dict of some [Story] and every
    document of [db.status_checks] the dict of some [StatusCheck]. *)
Definition written_by_api (db : Db) : Prop :=
  Forall (fun doc => exists s, doc = Story_dict s) (stories db) /\
  Forall (fun doc => exists c, doc = StatusCheck_dict c) (status_checks db).

(** Every stored story holds the text rendered from its own fields. *)
Definition content_is_rendering (db : Db) : Prop :=
  Forall (fun doc => exists s,
            doc = Story_dict s /\
            Story.story_content s = Some (generate_story_content s))
    (stories db).

(** The keys of the theme table and of the pacing table. *)
Definition recognized_theme (theme : pystr) : Prop :=
  is_Some (theme_settings !! theme).

Definition recognized_length (length : pystr) : Prop :=
  is_Some (length_pages !! length).

(** A document without one of the five fields [Story] requires. *)
Definition lacks_required_field (doc : gmap (list N) pyval) : Prop :=
  doc !! lit "kid_name" = None \/ doc !! lit "kid_age" = None \/
  doc !! lit "theme" = None \/ doc !! lit "story_type" = None \/
  doc !! lit "length" = None.

(** * Properties *)

(** ** Strings *)

Section StringFacts.

Implicit Types (s p sub pre post w a b : list N) (c : N).

Lemma lstrip_app_ws w s :
  forallb isspace w = true -> lstrip (w ++ s) = lstrip s.
Proof.
  induction w as [|c w IH]; simpl; [done|].
  intros [Hc Hw]%andb_prop. rewrite Hc. auto.
Qed.

Lemma lstrip_head c s : isspace c = false -> lstrip (c :: s) = c :: s.
Proof. simpl. by intros ->. Qed.

Lemma rstrip_app_ws s w :
  forallb isspace w = true -> rstrip (s ++ w) = rstrip s.
Proof.
  intros Hw. unfold rstrip. rewrite rev_app_distr.
  rewrite lstrip_app_ws; [done|].
  rewrite forallb_forall in *. intros x Hx. apply Hw. by apply in_rev.
Qed.

Lemma rstrip_last s c : isspace c = false -> rstrip (s ++ [c]) = s ++ [c].
Proof.
  intros Hc. unfold rstrip. rewrite rev_app_distr. simpl.
  rewrite Hc. simpl. by rewrite rev_involutive.
Qed.

Lemma startswith_app p s : startswith p (p ++ s) = true.
Proof.
  induction p as [|c p IH]; simpl; [done|]. by rewrite N.eqb_refl.
Qed.

Lemma startswith_inv p s :
  startswith p s = true -> exists post, s = p ++ post.
Proof.
  revert s. induction p as [|a p IH]; intros s; simpl.
  - by exists s.
  - destruct s as [|b s]; [done|].
    intros [Hab Hp]%andb_prop. apply N.eqb_eq in Hab as ->.
    destruct (IH _ Hp) as [post ->]. by exists post.
Qed.

Lemma contains_here sub post : contains sub (sub ++ post) = true.
Proof.
  destruct (sub ++ post) eqn:E; simpl; rewrite <- E, startswith_app; done.
Qed.

Lemma contains_here3 a b p post :
  contains (a ++ b ++ p) (a ++ b ++ p ++ post) = true.
Proof.
  rewrite (app_assoc b p post), (app_assoc a (b ++ p) post).
  apply contains_here.
Qed.

Lemma contains_cons sub c s :
  contains sub s = true -> contains sub (c :: s) = true.
Proof. simpl. intros ->. apply orb_true_r. Qed.

Lemma contains_skip pre sub s :
  contains sub s = true -> contains sub (pre ++ s) = true.
Proof.
  intros H. induction pre as [|c pre IH]; simpl app; [done|].
  by apply contains_cons.
Qed.

Lemma contains_intro pre sub post : contains sub (pre ++ sub ++ post) = true.
Proof. apply contains_skip, contains_here. Qed.

Lemma contains_inv sub s :
  contains sub s = true -> exists pre post, s = pre ++ sub ++ post.
Proof.
  induction s as [|c s IH]; simpl.
  - rewrite orb_false_r. intros [post E]%startswith_inv. by exists [], post.
  - intros [H|H]%orb_prop.
    + apply startswith_inv in H as [post E]. by exists [], post.
    + destruct (IH H) as (pre & post & ->). by exists (c :: pre), post.
Qed.

(** [contains] decides the substring relation. *)
Lemma contains_spec sub s :
  contains sub s = true <-> exists pre post, s = pre ++ sub ++ post.
Proof.
  split; [apply contains_inv|]. intros (pre & post & ->).
  apply contains_intro.
Qed.

Lemma contains_trans a b s :
  contains a b = true -> contains b s = true -> contains a s = true.
Proof.
  intros (p1 & q1 & ->)%contains_inv (p2 & q2 & ->)%contains_inv.
  rewrite <- !app_assoc, (app_assoc p2). apply contains_intro.
Qed.

Lemma endswith_app p s : endswith p (s ++ p) = true.
Proof. unfold endswith. rewrite rev_app_distr. apply startswith_app. Qed.

Lemma endswith_inv p s : endswith p s = true -> exists pre, s = pre ++ p.
Proof.
  unfold endswith. intros [post E]%startswith_inv. exists (rev post).
  by rewrite <- (rev_involutive s), E, rev_app_distr, rev_involutive.
Qed.

End StringFacts.

(** ** The shape of the rendered text *)

Lemma story_template_split n a st d i ty :
  story_template n a st d i ty
  = (NL ++ lit "    ") ++ story_text n a st d i ty ++ (NL ++ lit "    ").
Proof.
  unfold story_template, story_text.
  change (lit "    Once upon a time, there was a brave and curious child named ")
    with (lit "    "
          ++ lit "Once upon a time, there was a brave and curious child named ").
  by rewrite <- !app_assoc.
Qed.

Lemma story_text_head n a st d i ty :
  exists rest, story_text n a st d i ty = 79 :: rest.
Proof. unfold story_text. eexists. reflexivity. Qed.

Lemma story_text_last n a st d i ty :
  exists init, story_text n a st d i ty = init ++ [46].
Proof.
  unfold story_text.
  change (lit "    The End.") with (lit "    The End" ++ [46]).
  eexists. rewrite !app_assoc. reflexivity.
Qed.

Lemma story_text_end n a st d i ty :
  exists init, story_text n a st d i ty = init ++ lit "The End.".
Proof.
  unfold story_text.
  change (lit "    The End.") with (lit "    " ++ lit "The End.").
  eexists. rewrite !app_assoc. reflexivity.
Qed.

(** [strip] removes exactly the indentation around the template. *)
Lemma strip_story_template n a st d i ty :
  strip (story_template n a st d i ty) = story_text n a st d i ty.
Proof.
  rewrite story_template_split. unfold strip.
  rewrite lstrip_app_ws by reflexivity.
  destruct (story_text_head n a st d i ty) as [rest Hh].
  destruct (story_text_last n a st d i ty) as [init Hl].
  rewrite Hh. rewrite <- app_comm_cons, lstrip_head by reflexivity.
  rewrite app_comm_cons, <- Hh.
  rewrite rstrip_app_ws by reflexivity.
  rewrite Hl. by apply rstrip_last.
Qed.

Lemma generate_story_content_eq story :
  generate_story_content story
  = story_text (Story.kid_name story) (Story.kid_age story)
      (setting_of story) (story_length_desc_of story)
      (ingredients_text_of story) (Story.story_type story).
Proof. apply strip_story_template. Qed.

(** Each interpolated value occurs in the rendered text. *)
Ltac find_segment :=
  unfold story_text;
  repeat first [ apply contains_here | apply contains_skip ].

Lemma contains_kid_name story :
  contains (Story.kid_name story) (generate_story_content story) = true.
Proof. rewrite generate_story_content_eq. find_segment. Qed.

Lemma contains_kid_age story :
  contains (str_of_int (Story.kid_age story)) (generate_story_content story)
  = true.
Proof. rewrite generate_story_content_eq. find_segment. Qed.

Lemma contains_setting story :
  contains (setting_of story) (generate_story_content story) = true.
Proof. rewrite generate_story_content_eq. find_segment. Qed.

Lemma contains_story_length_desc story :
  contains (story_length_desc_of story) (generate_story_content story) = true.
Proof. rewrite generate_story_content_eq. find_segment. Qed.

Lemma contains_ingredients_text story :
  contains (ingredients_text_of story) (generate_story_content story) = true.
Proof. rewrite generate_story_content_eq. find_segment. Qed.

Lemma contains_story_type story :
  contains (Story.story_type story) (generate_story_content story) = true.
Proof. rewrite generate_story_content_eq. find_segment. Qed.

(** The ingredients slot, with the fixed words on both sides of it. *)
Lemma contains_ingredients_slot story :
  contains (lit " discovered " ++ ingredients_text_of story
            ++ lit " that would help them on their journey.")
    (generate_story_content story) = true.
Proof.
  rewrite generate_story_content_eq. unfold story_text.
  repeat lazymatch goal with
         | |- contains _ (lit " discovered " ++ _) = true => fail
         | |- _ => apply contains_skip
         end.
  apply contains_here3.
Qed.

(** ** The lookup tables *)

Lemma theme_settings_fallback theme dflt :
  theme <> lit "forest" -> theme <> lit "space" -> theme <> lit "ocean" ->
  theme <> lit "castle" -> theme <> lit "dinosaur" -> theme <> lit "fairy" ->
  dict_get theme_settings theme dflt = dflt.
Proof.
  intros. unfold dict_get, theme_settings.
  rewrite !lookup_insert_ne by done. by rewrite lookup_empty.
Qed.

Lemma length_pages_fallback length dflt :
  length <> lit "short" -> length <> lit "medium" -> length <> lit "long" ->
  dict_get length_pages length dflt = dflt.
Proof.
  intros. unfold dict_get, length_pages.
  rewrite !lookup_insert_ne by done. by rewrite lookup_empty.
Qed.

(** * Properties of the renderer *)

Lemma generate_story_content_call_eq story :
  (Z.abs (Story.kid_age story) < 10 ^ int_max_str_digits)%Z ->
  generate_story_content_call story = Some (generate_story_content story).
Proof.
  intros H. unfold generate_story_content_call, format_int.
  by rewrite (proj2 (Z.leb_gt _ _) H).
Qed.

Lemma generate_story_content_call_raises story :
  (10 ^ int_max_str_digits <= Z.abs (Story.kid_age story))%Z ->
  generate_story_content_call story = None.
Proof.
  intros H. unfold generate_story_content_call, format_int.
  by rewrite (proj2 (Z.leb_le _ _) H).
Qed.


Lemma contains_story_length_desc_slot story :
  contains (lit ". This was the beginning of " ++ story_length_desc_of story
            ++ lit " adventure!")
    (generate_story_content story) = true.
Proof.
  rewrite generate_story_content_eq. unfold story_text.
  repeat lazymatch goal with
         | |- contains _ (lit ". This was the beginning of " ++ _) = true => fail
         | |- _ => apply contains_skip
         end.
  apply contains_here3.
Qed.



(** C2. A record whose length is short, medium or long is rendered with
    the pacing phrase of that key, and a record with any other length with
    the phrase "an amazing": the phrase occurs in the text, it is what
    stands in the pacing slot, between ". This was the beginning of " and
    " adventure!", and the whole text is the template with that phrase as
    its pacing phrase, so that no other phrase of the table is put there. *)
Theorem render_embeds_pacing_phrase (story : Story.t) :
  let text := generate_story_content story in
  let length := Story.length story in
  let pacing_is (phrase : pystr) :=
    contains phrase text = true /\
    contains (lit ". This was the beginning of " ++ phrase
              ++ lit " adventure!") text = true /\
    text = story_text (Story.kid_name story) (Story.kid_age story)
             (setting_of story) phrase (ingredients_text_of story)
             (Story.story_type story) in
  (length = lit "short" -> pacing_is (lit "a quick but exciting")) /\
  (length = lit "medium" -> pacing_is (lit "a wonderful")) /\
  (length = lit "long" -> pacing_is (lit "an epic and detailed")) /\
  (length <> lit "short" -> length <> lit "medium" -> length <> lit "long" ->
     pacing_is (lit "an amazing")).
Proof.
  cbv zeta.
  assert (Hall : forall phrase, story_length_desc_of story = phrase ->
            contains phrase (generate_story_content story) = true /\
            contains (lit ". This was the beginning of " ++ phrase
                      ++ lit " adventure!")
              (generate_story_content story) = true /\
            generate_story_content story
            = story_text (Story.kid_name story) (Story.kid_age story)
                (setting_of story) phrase (ingredients_text_of story)
                (Story.story_type story)).
  { intros phrase <-. split; [apply contains_story_length_desc|].
    split; [apply contains_story_length_desc_slot
           |apply generate_story_content_eq]. }
  split; [|split; [|split]].
  1-3: intros E; apply Hall; unfold story_length_desc_of; rewrite E;
       reflexivity.
  intros. apply Hall. by apply length_pages_fallback.
Qed.

Lemma render_embeds_pacing_phrase_witness :
  (contains (lit "a wonderful")
     (generate_story_content
        (sample_story (lit "Ada") 7 (lit "ocean") (lit "bedtime") (lit "medium")
           []))
   = true /\
   generate_story_content
     (sample_story (lit "Ada") 7 (lit "ocean") (lit "bedtime") (lit "medium") [])
   = story_text (lit "Ada") 7
       (lit "in the depths of the ocean with colorful sea creatures")
       (lit "a wonderful") (lit "special surprises") (lit "bedtime")) /\
  (contains (lit "an amazing")
     (generate_story_content
        (sample_story (lit "Ada") 7 (lit "ocean") (lit "bedtime") (lit "tiny")
           []))
   = true /\
   generate_story_content
     (sample_story (lit "Ada") 7 (lit "ocean") (lit "bedtime") (lit "tiny") [])
   = story_text (lit "Ada") 7
       (lit "in the depths of the ocean with colorful sea creatures")
       (lit "an amazing") (lit "special surprises") (lit "bedtime")).
Proof.
  split.
  - destruct (render_embeds_pacing_phrase
                (sample_story (lit "Ada") 7 (lit "ocean") (lit "bedtime")
                   (lit "medium") []))
      as (_ & H & _).
    destruct H as (H1 & _ & H3); [reflexivity|]. split; [exact H1|exact H3].
  - destruct (render_embeds_pacing_phrase
                (sample_story (lit "Ada") 7 (lit "ocean") (lit "bedtime")
                   (lit "tiny") []))
      as (_ & _ & _ & H).
    destruct H as (H1 & _ & H3);
      [intros E; vm_compute in E; discriminate ..|].
    split; [exact H1|exact H3].
Defined.

Lemma join_cons2 sep (x y : list N) (rest : list (list N)) :
  join sep (x :: y :: rest) = x ++ sep ++ join sep (y :: rest).
Proof. reflexivity. Qed.

Lemma join_concat sep (xs : list (list N)) :
  sep = [] -> join sep xs = concat xs.
Proof.
  intros ->. induction xs as [|x [|y rest] IH]; simpl in *.
  - done.
  - by rewrite app_nil_r.
  - by rewrite IH.
Qed.

(** C3. With no special ingredients the rendered text contains
    "special surprises"; with a non-empty list it contains the elements
    joined by ", " in the order of the list, placed between " discovered "
    and " that would help them on their journey.". *)
Theorem render_embeds_ingredients (story : Story.t) :
  let text := generate_story_content story in
  let xs := Story.special_ingredients story in
  (xs = [] -> contains (lit "special surprises") text = true) /\
  (xs <> [] ->
     contains (join (lit ", ") xs) text = true /\
     contains (lit " discovered " ++ join (lit ", ") xs
               ++ lit " that would help them on their journey.") text = true).
Proof.
  cbv zeta.
  pose proof (contains_ingredients_text story) as H.
  pose proof (contains_ingredients_slot story) as Hs.
  unfold ingredients_text_of in *.
  destruct (Story.special_ingredients story) as [|x rest] eqn:E.
  - split; [intros _; exact H | done].
  - split; [done | intros _; by split].
Qed.

Lemma render_embeds_ingredients_witness :
  contains (lit "special surprises")
    (generate_story_content
       (sample_story (lit "Ada") 7 (lit "ocean") (lit "bedtime") (lit "long") []))
  = true /\
  contains (lit " discovered Dragons, Rainbows, Pirates that would help")
    (generate_story_content
       (sample_story (lit "Ada") 7 (lit "ocean") (lit "bedtime") (lit "long")
          [lit "Dragons"; lit "Rainbows"; lit "Pirates"]))
  = true.
Proof.
  split.
  - apply (proj1 (render_embeds_ingredients
                    (sample_story (lit "Ada") 7 (lit "ocean") (lit "bedtime")
                       (lit "long") []))).
    reflexivity.
  - apply (contains_trans _
             (lit " discovered "
              ++ join (lit ", ") [lit "Dragons"; lit "Rainbows"; lit "Pirates"]
              ++ lit " that would help them on their journey.")).
    + vm_compute. reflexivity.
    + apply (proj2 (render_embeds_ingredients
                      (sample_story (lit "Ada") 7 (lit "ocean") (lit "bedtime")
                         (lit "long")
                         [lit "Dragons"; lit "Rainbows"; lit "Pirates"]))).
      simpl. discriminate.
Defined.

(** C4 as stated fails: on a record whose age is 10 ^ 4300, an integer of
    4301 digits, the call raises instead of returning a text. *)
Lemma render_call_raises_on_long_age :
  generate_story_content_call
    (Story.mk (lit "id-1") (lit "Ada") (10 ^ 4300) None (lit "volcano")
       (lit "adventure") (lit "short") [] 0%Z None)
  = None /\
  ~ exists text,
      generate_story_content_call
        (Story.mk (lit "id-1") (lit "Ada") (10 ^ 4300) None (lit "volcano")
           (lit "adventure") (lit "short") [] 0%Z None)
      = Some text.
Proof.
  assert (E : generate_story_content_call
                (Story.mk (lit "id-1") (lit "Ada") (10 ^ 4300) None
                   (lit "volcano") (lit "adventure") (lit "short") [] 0%Z None)
              = None).
  { apply generate_story_content_call_raises. cbn [Story.kid_age].
    unfold int_max_str_digits. rewrite Z.abs_eq by (apply Z.pow_nonneg; lia).
    apply Z.le_refl. }
  split; [exact E|]. intros [text H]. rewrite E in H. discriminate.
Qed.

(** C4, amended. The call returns a text for every record whose age has at
    most 4300 digits, whatever the other field values: the text is never
    empty and ends with "The End."; for the theme "volcano" it contains
    "in a magical world". For an age of more digits the call raises. *)
Theorem render_total (id kid_name : pystr) (kid_age : Z)
    (kid_photo : option pystr) (theme story_type length : pystr)
    (special_ingredients : list pystr) (created_at : datetime)
    (story_content : option pystr) :
  let story := Story.mk id kid_name kid_age kid_photo theme story_type length
                 special_ingredients created_at story_content in
  ((Z.abs kid_age < 10 ^ 4300)%Z ->
   exists text,
     generate_story_content_call story = Some text /\
     text = generate_story_content story /\
     text <> [] /\
     endswith (lit "The End.") text = true /\
     (theme = lit "volcano" ->
        contains (lit "in a magical world") text = true)) /\
  ((10 ^ 4300 <= Z.abs kid_age)%Z ->
   generate_story_content_call story = None).
Proof.
  intros story. split; [|apply (generate_story_content_call_raises story)].
  intros Hage. exists (generate_story_content story).
  split; [by apply generate_story_content_call_eq|].
  split; [done|]. split; [|split].
  - rewrite generate_story_content_eq.
    destruct (story_text_head (Story.kid_name story) (Story.kid_age story)
                (setting_of story) (story_length_desc_of story)
                (ingredients_text_of story) (Story.story_type story))
      as [rest ->].
    done.
  - rewrite generate_story_content_eq.
    destruct (story_text_end (Story.kid_name story) (Story.kid_age story)
                (setting_of story) (story_length_desc_of story)
                (ingredients_text_of story) (Story.story_type story))
      as [init ->].
    apply endswith_app.
  - intros ->. pose proof (contains_setting story) as H.
    unfold setting_of, story in H. cbn [Story.theme] in H.
    rewrite theme_settings_fallback in H by (vm_compute; discriminate).
    exact H.
Qed.

Lemma render_total_witness :
  exists text,
    generate_story_content_call
      (Story.mk (lit "id-1") (lit "Ada") (-3) (Some (lit "not a photo"))
         (lit "volcano") [] (lit "huge") [] 0%Z None) = Some text /\
    text <> [] /\
    endswith (lit "The End.") text = true /\
    contains (lit "in a magical world") text = true.
Proof.
  destruct (proj1 (render_total (lit "id-1") (lit "Ada") (-3)
                     (Some (lit "not a photo")) (lit "volcano") [] (lit "huge")
                     [] 0%Z None))
    as (text & H1 & _ & H2 & H3 & H4).
  - apply Z.lt_le_trans with (10 ^ 1)%Z; [reflexivity|].
    apply Z.pow_le_mono_r; lia.
  - exists text. repeat split; try assumption. apply H4. reflexivity.
Defined.

(** C5. The record of the API test (Test Kid, 5, forest, adventure, short,
    Magic spells and Talking animals) is rendered to a text containing the
    six listed substrings, whatever its id, photo, creation time and
    previous content. *)
Theorem render_test_kid (id : pystr) (kid_photo : option pystr)
    (created_at : datetime) (story_content : option pystr) :
  let text :=
    generate_story_content
      (Story.mk id (lit "Test Kid") 5 kid_photo (lit "forest")
         (lit "adventure") (lit "short")
         [lit "Magic spells"; lit "Talking animals"] created_at
         story_content) in
  contains (lit "Test Kid") text = true /\
  contains (lit "5 years old") text = true /\
  contains (lit "deep in a magical forest filled with talking animals") text
    = true /\
  contains (lit "a quick but exciting") text = true /\
  contains (lit "Magic spells, Talking animals") text = true /\
  contains (lit "adventure story") text = true.
Proof. cbv zeta. repeat split; vm_compute; reflexivity. Qed.

(** C6. The rendered text is the five-paragraph template with the name,
    the age, the setting, the pacing phrase, the ingredients text and the
    story type filled in, in that order, without the whitespace around it:
    its first and its last character are not whitespace, and it ends with
    "The End.". *)
Theorem render_is_trimmed_template (story : Story.t) :
  let text := generate_story_content story in
  text = story_text (Story.kid_name story) (Story.kid_age story)
           (setting_of story) (story_length_desc_of story)
           (ingredients_text_of story) (Story.story_type story) /\
  (exists c rest, text = c :: rest /\ isspace c = false) /\
  (exists init c, text = init ++ [c] /\ isspace c = false) /\
  endswith (lit "The End.") text = true /\
  strip text = text.
Proof.
  cbv zeta. rewrite generate_story_content_eq.
  set (n := Story.kid_name story). set (a := Story.kid_age story).
  set (st := setting_of story). set (d := story_length_desc_of story).
  set (i := ingredients_text_of story). set (ty := Story.story_type story).
  destruct (story_text_head n a st d i ty) as [rest Hh].
  destruct (story_text_last n a st d i ty) as [init Hl].
  destruct (story_text_end n a st d i ty) as [init' He].
  split; [done|]. split; [|split; [|split]].
  - exists 79, rest. by split.
  - exists init, 46. by split.
  - rewrite He. apply endswith_app.
  - unfold strip. rewrite Hh at 1. rewrite lstrip_head by reflexivity.
    rewrite <- Hh, Hl. by apply rstrip_last.
Qed.

(** * Properties of the endpoints *)

Lemma Story_init_request uuid now r :
  Story_init uuid now (StoryCreate_dict r) = Some (story_of_request uuid now r).
Proof. destruct r as [n a [p|] t ty l i]; reflexivity. Qed.

Lemma Story_init_dict uuid now s : Story_init uuid now (Story_dict s) = Some s.
Proof. destruct s as [id n a [p|] t ty l i c [sc|]]; reflexivity. Qed.

Lemma Story_dict_id s : Story_dict s !! lit "id" = Some (VStr (Story.id s)).
Proof. reflexivity. Qed.

Lemma Story_dict_nonempty s : Story_dict s <> ∅.
Proof.
  intros E. pose proof (Story_dict_id s) as H. rewrite E in H.
  by rewrite lookup_empty in H.
Qed.

Lemma bson_document_Story_dict s :
  bson_document (Story_dict s) = Story_dict (stored_story s).
Proof. destruct s as [id n a [p|] t ty l i c [sc|]]; reflexivity. Qed.

Lemma create_story_eq uuid now r db :
  let story_obj := story_of_request uuid now r in
  let story_content := generate_story_content story_obj in
  create_story uuid now r db
  = Some (list_to_map [
            (lit "id", VStr uuid);
            (lit "message", VStr (lit "Story created successfully"));
            (lit "story_content", VStr story_content) ],
          mkDb (status_checks db)
            (stories db
             ++ [Story_dict
                   (stored_story (set_story_content story_obj story_content))])).
Proof.
  cbv zeta. unfold create_story, mbind, Handler_bind, validated.
  rewrite Story_init_request. unfold stories_insert_one.
  rewrite bson_document_Story_dict. reflexivity.
Qed.

Lemma find_none_iff (story_id : list N) (docs : list (gmap (list N) pyval)) :
  find (matches_id story_id) docs = None
  <-> forall doc, In doc docs -> doc !! lit "id" <> Some (VStr story_id).
Proof.
  unfold matches_id. induction docs as [|d docs IH]; simpl.
  - split; [intros _ doc []|done].
  - case_bool_decide as Hd.
    + split; [done|]. intros H. exfalso. apply (H d); auto.
    + rewrite IH. split.
      * intros H doc [<-|Hin]; auto.
      * intros H doc Hin. apply H. auto.
Qed.

Lemma find_app_fresh (story_id : list N) (docs : list (gmap (list N) pyval)) doc :
  find (matches_id story_id) docs = None ->
  matches_id story_id doc = true ->
  find (matches_id story_id) (docs ++ [doc]) = Some doc.
Proof.
  intros Hn Hd. induction docs as [|d docs IH]; simpl in *.
  - by rewrite Hd.
  - destruct (matches_id story_id d); [done|]. auto.
Qed.

Lemma filter_matches_id (story_id : list N) (doc : gmap (list N) pyval) :
  ~ filter_matches story_id doc -> doc !! lit "id" <> Some (VStr story_id).
Proof. unfold filter_matches. intros H E. rewrite E in H. by apply H. Qed.

Lemma find_none_filter (story_id : list N)
    (docs : list (gmap (list N) pyval)) :
  (forall doc, In doc docs -> ~ filter_matches story_id doc) ->
  find (matches_id story_id) docs = None.
Proof.
  intros H. apply find_none_iff. intros doc Hin.
  by apply filter_matches_id, H.
Qed.

(** C8. When the store selects no document for the requested id,
    [get_story] does not raise: it returns, as an ordinary value, the pair
    of the dict with the error "Story not found" and the number 404, and
    leaves the database as it was. That value is different from every
    [Story], but the handler has returned: the request is answered with
    status 200, the 404 being part of the body, and not with a not-found
    status. *)
Theorem get_story_miss (uuid : pystr) (now : datetime) (story_id : pystr)
    (db : Db) :
  (forall doc, In doc (stories db) -> ~ filter_matches story_id doc) ->
  exists r,
    get_story uuid now story_id db = Some (r, db) /\
    r = ErrorPair {[ lit "error" := VStr (lit "Story not found") ]} 404%Z /\
    (forall s, r <> FoundStory s) /\
    response_status (get_story uuid now story_id db) = 200%Z.
Proof.
  intros Hmiss. apply find_none_filter in Hmiss.
  assert (E : get_story uuid now story_id db
              = Some (ErrorPair
                        {[ lit "error" := VStr (lit "Story not found") ]}
                        404%Z, db)).
  { unfold get_story, mbind, Handler_bind, stories_find_one.
    rewrite Hmiss. reflexivity. }
  eexists. split; [exact E|]. split; [reflexivity|]. split; [done|].
  by rewrite E.
Qed.

Lemma get_story_miss_witness :
  exists r,
    get_story (lit "u-2") 0%Z (lit "absent")
      (mkDb []
         [Story_dict
            (sample_story (lit "Ada") 7 (lit "ocean") (lit "bedtime")
               (lit "long") [])])
    = Some (r, mkDb []
                 [Story_dict
                    (sample_story (lit "Ada") 7 (lit "ocean") (lit "bedtime")
                       (lit "long") [])]) /\
    r = ErrorPair {[ lit "error" := VStr (lit "Story not found") ]} 404%Z /\
    (forall s, r <> FoundStory s) /\
    response_status
      (get_story (lit "u-2") 0%Z (lit "absent")
         (mkDb []
            [Story_dict
               (sample_story (lit "Ada") 7 (lit "ocean") (lit "bedtime")
                  (lit "long") [])])) = 200%Z.
Proof.
  apply (get_story_miss (lit "u-2") 0%Z (lit "absent")).
  intros doc [<-|[]]. vm_compute. discriminate.
Defined.

(** C9 as stated fails: the dict [create_story] returns has no [kid_name]
    key (nor any other field of the record besides [id] and
    [story_content]), although the stored document has one. *)
Lemma create_story_response_lacks_record :
  exists resp db' doc,
    create_story (lit "u-1") 0%Z test_request (mkDb [] []) = Some (resp, db') /\
    stories db' = [doc] /\
    doc !! lit "kid_name" = Some (VStr (lit "Test Kid")) /\
    resp !! lit "kid_name" = None /\
    ~ (doc ⊆ resp).
Proof.
  eexists _, _, _. split; [apply create_story_eq|].
  split; [reflexivity|]. split; [reflexivity|].
  assert (Hn : (list_to_map [
            (lit "id", VStr (lit "u-1"));
            (lit "message", VStr (lit "Story created successfully"));
            (lit "story_content",
             VStr (generate_story_content
                     (story_of_request (lit "u-1") 0%Z test_request))) ]
            : gmap (list N) pyval) !! lit "kid_name" = None) by reflexivity.
  split; [exact Hn|].
  intros Hsub.
  rewrite map_subseteq_spec in Hsub.
  specialize (Hsub (lit "kid_name") (VStr (lit "Test Kid")) eq_refl).
  rewrite Hn in Hsub. discriminate.
Qed.

(** C9, amended. When a creation request succeeds, it has appended exactly
    one document to [db.stories] and changed nothing else: the document has
    the ten fields of the record, with the fields of the request, the new
    id, the creation time as the store keeps it, and [story_content] equal
    to the text rendered from that record. The dict returned has exactly
    the keys [id], [message] and [story_content], the last holding the same
    rendered text. *)
Theorem create_story_inserts_once (uuid : pystr) (now : datetime)
    (r : StoryCreate.t) (db : Db) (resp : gmap (list N) pyval) (db' : Db) :
  create_story uuid now r db = Some (resp, db') ->
  let story_obj :=
    Story.mk uuid (StoryCreate.kid_name r) (StoryCreate.kid_age r)
      (StoryCreate.kid_photo r) (StoryCreate.theme r)
      (StoryCreate.story_type r) (StoryCreate.length r)
      (StoryCreate.special_ingredients r) now None in
  let text := generate_story_content story_obj in
  exists doc,
    db' = mkDb (status_checks db) (stories db ++ [doc]) /\
    doc !! lit "id" = Some (VStr uuid) /\
    doc !! lit "kid_name" = Some (VStr (StoryCreate.kid_name r)) /\
    doc !! lit "kid_age" = Some (VInt (StoryCreate.kid_age r)) /\
    doc !! lit "kid_photo" = Some (of_opt_str (StoryCreate.kid_photo r)) /\
    doc !! lit "theme" = Some (VStr (StoryCreate.theme r)) /\
    doc !! lit "story_type" = Some (VStr (StoryCreate.story_type r)) /\
    doc !! lit "length" = Some (VStr (StoryCreate.length r)) /\
    doc !! lit "special_ingredients"
      = Some (VStrList (StoryCreate.special_ingredients r)) /\
    doc !! lit "created_at" = Some (VDatetime (bson_datetime now)) /\
    doc !! lit "story_content" = Some (VStr text) /\
    dom doc = {[ lit "id"; lit "kid_name"; lit "kid_age"; lit "kid_photo";
                 lit "theme"; lit "story_type"; lit "length";
                 lit "special_ingredients"; lit "created_at";
                 lit "story_content" ]} /\
    resp !! lit "id" = Some (VStr uuid) /\
    resp !! lit "message" = Some (VStr (lit "Story created successfully")) /\
    resp !! lit "story_content" = Some (VStr text) /\
    dom resp = {[ lit "id"; lit "message"; lit "story_content" ]}.
Proof.
  rewrite create_story_eq. intros [= <- <-]. cbv zeta.
  eexists. split; [reflexivity|].
  repeat split; reflexivity.
Qed.

Lemma create_story_inserts_once_witness :
  exists resp db' doc,
    create_story (lit "u-1") 1700000000151321%Z test_request (mkDb [] [])
    = Some (resp, db') /\
    db' = mkDb [] ([] ++ [doc]) /\
    doc !! lit "created_at" = Some (VDatetime 1700000000151000%Z) /\
    doc !! lit "story_content" = resp !! lit "story_content" /\
    dom resp = {[ lit "id"; lit "message"; lit "story_content" ]}.
Proof.
  destruct (create_story_inserts_once (lit "u-1") 1700000000151321%Z
              test_request (mkDb [] []) _ _ (create_story_eq _ _ _ _))
    as (doc & Hdb & _ & _ & _ & _ & _ & _ & _ & _ & Hc & Hs & _ & _ & _
        & Hr & Hd).
  eexists _, _, doc. split; [apply create_story_eq|].
  rewrite Hs, Hr. repeat split; assumption.
Defined.



(** * Further properties of the endpoints *)

Lemma StatusCheck_init_request uuid now c :
  StatusCheck_init uuid now (StatusCheckCreate_dict c)
  = Some (StatusCheck.mk uuid (StatusCheckCreate.client_name c) now).
Proof. destruct c. reflexivity. Qed.

Lemma StatusCheck_init_dict uuid now c :
  StatusCheck_init uuid now (StatusCheck_dict c) = Some c.
Proof. destruct c. reflexivity. Qed.

Lemma bson_document_StatusCheck_dict c :
  bson_document (StatusCheck_dict c) = StatusCheck_dict (stored_status_check c).
Proof. destruct c. reflexivity. Qed.

Lemma create_status_check_eq uuid now c db :
  let status_obj := StatusCheck.mk uuid (StatusCheckCreate.client_name c) now in
  create_status_check uuid now c db
  = Some (status_obj,
          mkDb (status_checks db
                ++ [StatusCheck_dict (stored_status_check status_obj)])
            (stories db)).
Proof.
  cbv zeta. unfold create_status_check, mbind, Handler_bind, validated.
  rewrite StatusCheck_init_request. unfold status_checks_insert_one.
  rewrite bson_document_StatusCheck_dict. reflexivity.
Qed.

(** [get_story] written as one case analysis on what [find_one] returns. *)
Lemma get_story_eq uuid now story_id db :
  get_story uuid now story_id db
  = match find (matches_id story_id) (stories db) with
    | None =>
        Some (ErrorPair {[ lit "error" := VStr (lit "Story not found") ]} 404%Z,
              db)
    | Some doc =>
        if bool_decide (doc = ∅) then
          Some (ErrorPair {[ lit "error" := VStr (lit "Story not found") ]}
                  404%Z, db)
        else
          match Story_init uuid now doc with
          | Some s => Some (FoundStory s, db)
          | None => None
          end
    end.
Proof.
  unfold get_story, mbind, Handler_bind, stories_find_one, validated, py_not.
  destruct (find (matches_id story_id) (stories db)) as [doc|]; [|reflexivity].
  destruct (bool_decide (doc = ∅)); [reflexivity|].
  cbn [from_option id]. by destruct (Story_init uuid now doc).
Qed.

Lemma get_all_stories_eq uuid now db :
  get_all_stories uuid now db
  = match init_each Story_init uuid now 0 (take 1000 (stories db)) with
    | Some l => Some (l, db)
    | None => None
    end.
Proof. reflexivity. Qed.

Lemma get_status_checks_eq uuid now db :
  get_status_checks uuid now db
  = match init_each StatusCheck_init uuid now 0 (take 1000 (status_checks db)) with
    | Some l => Some (l, db)
    | None => None
    end.
Proof. reflexivity. Qed.

Section InitEach.

Context {A : Type}.
Variable init : list N -> datetime -> gmap (list N) pyval -> option A.
Variables (uuid : nat -> list N) (now : nat -> datetime).

Lemma init_each_length i docs l :
  init_each init uuid now i docs = Some l -> length l = length docs.
Proof.
  revert i l. induction docs as [|doc docs IH]; intros i l; simpl.
  - by intros [= <-].
  - destruct (init (uuid i) (now i) doc) as [x|]; [|done]. simpl.
    destruct (init_each init uuid now (S i) docs) as [xs|] eqn:E; [|done].
    simpl. intros [= <-]. simpl. f_equal. eauto.
Qed.

Lemma init_each_fmap (enc : A -> gmap (list N) pyval) i xs :
  (forall u n x, init u n (enc x) = Some x) ->
  init_each init uuid now i (enc <$> xs) = Some xs.
Proof.
  intros Hinit. revert i. induction xs as [|x xs IH]; intros i; simpl.
  - done.
  - by rewrite Hinit, IH.
Qed.

Lemma init_each_rejected i docs doc :
  (forall u n, init u n doc = None) -> In doc docs ->
  init_each init uuid now i docs = None.
Proof.
  intros Hbad. revert i. induction docs as [|d docs IH]; intros i; simpl.
  - intros [].
  - intros [->|Hin].
    + by rewrite Hbad.
    + destruct (init (uuid i) (now i) d); [|done]. simpl.
      by rewrite IH.
Qed.

End InitEach.

Lemma Forall_dicts {A} (enc : A -> gmap (list N) pyval)
    (docs : list (gmap (list N) pyval)) :
  Forall (fun doc => exists x, doc = enc x) docs <-> exists xs, docs = enc <$> xs.
Proof.
  split.
  - induction 1 as [|doc docs [x ->] _ [xs ->]].
    + by exists [].
    + by exists (x :: xs).
  - intros [xs ->]. induction xs as [|x xs IH]; simpl; constructor; eauto.
Qed.

Lemma find_app_other (story_id : list N) (docs : list (gmap (list N) pyval)) doc :
  matches_id story_id doc = false ->
  find (matches_id story_id) (docs ++ [doc]) = find (matches_id story_id) docs.
Proof.
  intros Hd. induction docs as [|d docs IH]; simpl.
  - by rewrite Hd.
  - by destruct (matches_id story_id d).
Qed.

Lemma render_ignores_story_content s c :
  generate_story_content (set_story_content s c) = generate_story_content s.
Proof. reflexivity. Qed.

(** X1. Round trip. After a story is created under an id for which the
    store selects no document yet, looking that id up returns the whole
    record: the fields of the request, the id, the rendered text as
    [story_content], and the creation time cut to the millisecond, which is
    how the store keeps it. *)
Theorem create_then_get_story (uuid : pystr) (now : datetime)
    (r : StoryCreate.t) (db : Db) (uuid' : pystr) (now' : datetime) :
  (forall doc, In doc (stories db) -> ~ filter_matches uuid doc) ->
  exists resp db' text,
    create_story uuid now r db = Some (resp, db') /\
    resp !! lit "story_content" = Some (VStr text) /\
    get_story uuid' now' uuid db'
    = Some (FoundStory
              (Story.mk uuid (StoryCreate.kid_name r) (StoryCreate.kid_age r)
                 (StoryCreate.kid_photo r) (StoryCreate.theme r)
                 (StoryCreate.story_type r) (StoryCreate.length r)
                 (StoryCreate.special_ingredients r) (bson_datetime now)
                 (Some text)),
            db').
Proof.
  intros Hfresh. eexists _, _, _. split; [apply create_story_eq|].
  split; [reflexivity|].
  rewrite get_story_eq. cbn [stories].
  rewrite (find_app_fresh uuid (stories db) _ (find_none_filter _ _ Hfresh))
    by (apply bool_decide_eq_true_2; reflexivity).
  rewrite bool_decide_eq_false_2 by apply Story_dict_nonempty.
  rewrite Story_init_dict. reflexivity.
Qed.

Lemma create_then_get_story_witness :
  exists resp db' text,
    create_story (lit "u-1") 1700000000151321%Z test_request
      (mkDb []
         [Story_dict (sample_story (lit "Ada") 7 (lit "ocean") (lit "bedtime")
                        (lit "long") [])])
    = Some (resp, db') /\
    resp !! lit "story_content" = Some (VStr text) /\
    get_story (lit "u-2") 9%Z (lit "u-1") db'
    = Some (FoundStory
              (Story.mk (lit "u-1") (lit "Test Kid") 5
                 (Some (lit "data:image/png;base64,iVBORw0KGgo="))
                 (lit "forest") (lit "adventure") (lit "short")
                 [lit "Magic spells"; lit "Talking animals"]
                 (bson_datetime 1700000000151321%Z) (Some text)),
            db') /\
    bson_datetime 1700000000151321%Z = 1700000000151000%Z.
Proof.
  destruct (create_then_get_story (lit "u-1") 1700000000151321%Z test_request
              (mkDb []
                 [Story_dict (sample_story (lit "Ada") 7 (lit "ocean")
                                (lit "bedtime") (lit "long") [])])
              (lit "u-2") 9%Z)
    as (resp & db' & text & H1 & H2 & H3).
  - intros doc [<-|[]]. vm_compute. intros E. discriminate.
  - exists resp, db', text. repeat split; try assumption.
Defined.

(** X2. Creating a story does not change what a lookup of any other id
    returns. *)
Theorem create_story_keeps_other_lookups (uuid : pystr) (now : datetime)
    (r : StoryCreate.t) (db : Db) (uuid' : pystr) (now' : datetime)
    (story_id : pystr) :
  story_id <> uuid ->
  exists resp db',
    create_story uuid now r db = Some (resp, db') /\
    fst <$> get_story uuid' now' story_id db'
    = fst <$> get_story uuid' now' story_id db.
Proof.
  intros Hne. eexists _, _. split; [apply create_story_eq|].
  rewrite !get_story_eq. cbn [stories].
  rewrite find_app_other.
  - destruct (find (matches_id story_id) (stories db)) as [doc|]; [|done].
    destruct (bool_decide (doc = ∅)); [done|].
    by destruct (Story_init uuid' now' doc).
  - apply bool_decide_eq_false_2. rewrite Story_dict_id. cbn [Story.id].
    intros [= E]. by apply Hne.
Qed.

Lemma create_story_keeps_other_lookups_witness :
  exists resp db',
    create_story (lit "u-1") 7%Z test_request (mkDb [] []) = Some (resp, db') /\
    fst <$> get_story (lit "u-2") 9%Z (lit "u-0") db'
    = fst <$> get_story (lit "u-2") 9%Z (lit "u-0") (mkDb [] []).
Proof.
  apply (create_story_keeps_other_lookups (lit "u-1") 7%Z test_request
           (mkDb [] []) (lit "u-2") 9%Z (lit "u-0")).
  vm_compute. discriminate.
Defined.

(** X3. The three reading endpoints never change the database: whenever
    one of them returns, the database is the one it was called with. *)
Theorem read_endpoints_keep_db (db db' : Db) :
  (forall uuid now story_id r,
     get_story uuid now story_id db = Some (r, db') -> db' = db) /\
  (forall uuid now l, get_all_stories uuid now db = Some (l, db') -> db' = db) /\
  (forall uuid now l, get_status_checks uuid now db = Some (l, db') -> db' = db).
Proof.
  split; [|split].
  - intros uuid now story_id r. rewrite get_story_eq.
    destruct (find (matches_id story_id) (stories db)) as [doc|].
    + destruct (bool_decide (doc = ∅)); [by intros [= _ <-]|].
      destruct (Story_init uuid now doc); [by intros [= _ <-]|done].
    + by intros [= _ <-].
  - intros uuid now l. rewrite get_all_stories_eq.
    destruct (init_each _ _ _ _ _); [by intros [= _ <-]|done].
  - intros uuid now l. rewrite get_status_checks_eq.
    destruct (init_each _ _ _ _ _); [by intros [= _ <-]|done].
Qed.

Lemma read_endpoints_keep_db_witness :
  exists r l1 l2 db1 db2 db3,
    get_story (lit "u") 0%Z (lit "0f8fad5b-d9cb-469f-a165-70867728950e")
      (mkDb [StatusCheck_dict (StatusCheck.mk (lit "c-1") (lit "kiosk") 5000%Z)]
         [Story_dict (sample_story (lit "Ada") 7 (lit "ocean") (lit "bedtime")
                        (lit "long") [])])
    = Some (FoundStory r, db1) /\
    get_all_stories (fun _ => lit "u") (fun _ => 0%Z)
      (mkDb [StatusCheck_dict (StatusCheck.mk (lit "c-1") (lit "kiosk") 5000%Z)]
         [Story_dict (sample_story (lit "Ada") 7 (lit "ocean") (lit "bedtime")
                        (lit "long") [])])
    = Some ([l1], db2) /\
    get_status_checks (fun _ => lit "u") (fun _ => 0%Z)
      (mkDb [StatusCheck_dict (StatusCheck.mk (lit "c-1") (lit "kiosk") 5000%Z)]
         [Story_dict (sample_story (lit "Ada") 7 (lit "ocean") (lit "bedtime")
                        (lit "long") [])])
    = Some ([l2], db3) /\
    db1 = mkDb [StatusCheck_dict
                  (StatusCheck.mk (lit "c-1") (lit "kiosk") 5000%Z)]
            [Story_dict (sample_story (lit "Ada") 7 (lit "ocean")
                           (lit "bedtime") (lit "long") [])] /\
    db2 = db1 /\ db3 = db1.
Proof.
  eexists _, _, _, _, _, _.
  split; [reflexivity|]. split; [reflexivity|]. split; [reflexivity|].
  destruct (read_endpoints_keep_db
              (mkDb [StatusCheck_dict
                       (StatusCheck.mk (lit "c-1") (lit "kiosk") 5000%Z)]
                 [Story_dict (sample_story (lit "Ada") 7 (lit "ocean")
                                (lit "bedtime") (lit "long") [])])
              (mkDb [StatusCheck_dict
                       (StatusCheck.mk (lit "c-1") (lit "kiosk") 5000%Z)]
                 [Story_dict (sample_story (lit "Ada") 7 (lit "ocean")
                                (lit "bedtime") (lit "long") [])]))
    as (H1 & H2 & H3).
  split; [|split].
  - exact (H1 (lit "u") 0%Z (lit "0f8fad5b-d9cb-469f-a165-70867728950e") _
             eq_refl).
  - exact (H2 (fun _ => lit "u") (fun _ => 0%Z) _ eq_refl).
  - exact (H3 (fun _ => lit "u") (fun _ => 0%Z) _ eq_refl).
Defined.

(** X4. The empty database is written through the endpoints, and both
    creating endpoints keep a database so: after any sequence of requests
    every stored document is the dict of a model. *)
Theorem written_by_api_preserved :
  written_by_api (mkDb [] []) /\
  (forall uuid now r db resp db',
     written_by_api db -> create_story uuid now r db = Some (resp, db') ->
     written_by_api db') /\
  (forall uuid now c db obj db',
     written_by_api db -> create_status_check uuid now c db = Some (obj, db') ->
     written_by_api db').
Proof.
  split; [by split; constructor|]. split.
  - intros uuid now r db resp db' [Hs Hc] H.
    rewrite create_story_eq in H. injection H as _ <-.
    split; cbn [stories status_checks]; [|done].
    apply Forall_app. split; [done|]. constructor; [|constructor]. eauto.
  - intros uuid now c db obj db' [Hs Hc] H.
    rewrite create_status_check_eq in H. injection H as _ <-.
    split; cbn [stories status_checks]; [done|].
    apply Forall_app. split; [done|]. constructor; [|constructor]. eauto.
Qed.

Lemma written_by_api_preserved_witness :
  exists resp db',
    create_story (lit "u-1") 7%Z test_request (mkDb [] []) = Some (resp, db') /\
    written_by_api db'.
Proof.
  eexists _, _. split; [apply create_story_eq|].
  eapply (proj1 (proj2 written_by_api_preserved)
            (lit "u-1") 7%Z test_request (mkDb [] [])).
  - apply written_by_api_preserved.
  - apply create_story_eq.
Defined.

(** X5. On a database written through the endpoints no reading endpoint
    raises: a lookup returns a result, and both listings return a list. *)
Theorem read_endpoints_return (db : Db) :
  written_by_api db ->
  (forall uuid now story_id, exists r,
     get_story uuid now story_id db = Some (r, db)) /\
  (forall uuid now, exists l, get_all_stories uuid now db = Some (l, db)) /\
  (forall uuid now, exists l, get_status_checks uuid now db = Some (l, db)).
Proof.
  intros [Hs Hc]. split; [|split].
  - intros uuid now story_id. rewrite get_story_eq.
    destruct (find (matches_id story_id) (stories db)) as [doc|] eqn:E;
      [|eauto].
    apply find_some in E as [Hin _].
    rewrite Forall_forall in Hs. destruct (Hs doc) as [s ->].
    { by apply list_elem_of_In. }
    rewrite bool_decide_eq_false_2 by apply Story_dict_nonempty.
    rewrite Story_init_dict. eauto.
  - intros uuid now. rewrite get_all_stories_eq.
    apply Forall_dicts in Hs as [ss ->]. rewrite <- fmap_take.
    rewrite init_each_fmap by (intros; apply Story_init_dict). eauto.
  - intros uuid now. rewrite get_status_checks_eq.
    apply Forall_dicts in Hc as [cs ->]. rewrite <- fmap_take.
    rewrite init_each_fmap by (intros; apply StatusCheck_init_dict). eauto.
Qed.

Lemma read_endpoints_return_witness :
  exists l,
    get_all_stories (fun _ => lit "u") (fun _ => 0%Z)
      (mkDb [] [Story_dict (story_of_request (lit "u-1") 7%Z test_request)])
    = Some (l, mkDb [] [Story_dict
                          (story_of_request (lit "u-1") 7%Z test_request)]).
Proof.
  apply (read_endpoints_return
           (mkDb [] [Story_dict (story_of_request (lit "u-1") 7%Z test_request)])).
  split; cbn [stories status_checks]; [|constructor].
  constructor; [|constructor]. eexists. reflexivity.
Defined.

(** X6. Stored content stays the rendering of the stored fields: if every
    stored story holds the text rendered from its own fields, this is still
    so after a story or a status check is created, and every story a
    lookup returns then carries the text the renderer gives for it. *)
Theorem content_is_rendering_kept (db : Db) :
  content_is_rendering db ->
  (forall uuid now r resp db',
     create_story uuid now r db = Some (resp, db') ->
     content_is_rendering db') /\
  (forall uuid now c obj db',
     create_status_check uuid now c db = Some (obj, db') ->
     content_is_rendering db') /\
  (forall uuid now story_id s db',
     get_story uuid now story_id db = Some (FoundStory s, db') ->
     Story.story_content s = Some (generate_story_content s)).
Proof.
  unfold content_is_rendering. intros Hdb. split; [|split].
  - intros uuid now r resp db' H.
    rewrite create_story_eq in H. injection H as _ <-.
    cbn [stories status_checks].
    apply Forall_app. split; [done|]. constructor; [|constructor].
    eexists. split; reflexivity.
  - intros uuid now c obj db' H.
    rewrite create_status_check_eq in H. by injection H as _ <-.
  - intros uuid now story_id s db'. rewrite get_story_eq.
    destruct (find (matches_id story_id) (stories db)) as [doc|] eqn:E;
      [|done].
    apply find_some in E as [Hin _].
    rewrite Forall_forall in Hdb. destruct (Hdb doc) as (s0 & -> & Hs0).
    { by apply list_elem_of_In. }
    rewrite bool_decide_eq_false_2 by apply Story_dict_nonempty.
    rewrite Story_init_dict. by intros [= <- _].
Qed.

Lemma content_is_rendering_kept_witness :
  exists resp db',
    create_story (lit "u-1") 7%Z test_request (mkDb [] []) = Some (resp, db') /\
    content_is_rendering db'.
Proof.
  assert (H0 : content_is_rendering (mkDb [] [])).
  { unfold content_is_rendering. cbn [stories]. constructor. }
  eexists _, _. split; [apply create_story_eq|].
  eapply (proj1 (content_is_rendering_kept (mkDb [] []) H0)
            (lit "u-1") 7%Z test_request).
  apply create_story_eq.
Defined.

Lemma get_all_stories_dicts (uuid : nat -> list N) (now : nat -> datetime)
    (db : Db) (ss : list Story.t) :
  stories db = Story_dict <$> ss ->
  get_all_stories uuid now db = Some (take 1000 ss, db).
Proof.
  intros E. rewrite get_all_stories_eq, E, <- fmap_take.
  by rewrite init_each_fmap by (intros; apply Story_init_dict).
Qed.

(** X7. Listing round trip and page size. When the stored documents are
    the dicts of the stories [ss], [get_all_stories] returns the first 1000
    of them, in the order they were stored, and leaves the database
    alone. *)
Theorem get_all_stories_round_trip (uuid : nat -> pystr)
    (now : nat -> datetime) (db : Db) (ss : list Story.t) :
  stories db = Story_dict <$> ss ->
  get_all_stories uuid now db = Some (take 1000 ss, db).
Proof. apply get_all_stories_dicts. Qed.

Lemma get_all_stories_round_trip_witness :
  get_all_stories (fun _ => lit "u") (fun _ => 0%Z)
    (mkDb [] [Story_dict (story_of_request (lit "u-1") 7%Z test_request)])
  = Some (take 1000 [story_of_request (lit "u-1") 7%Z test_request],
          mkDb [] [Story_dict (story_of_request (lit "u-1") 7%Z test_request)]).
Proof.
  apply (get_all_stories_round_trip (fun _ => lit "u") (fun _ => 0%Z)
           (mkDb [] [Story_dict (story_of_request (lit "u-1") 7%Z test_request)])
           [story_of_request (lit "u-1") 7%Z test_request]).
  reflexivity.
Defined.

(** X8. Whatever the collections hold, a listing that returns has as many
    entries as the collection has documents, up to 1000 and never more. *)
Theorem listings_are_bounded (uuid : nat -> pystr) (now : nat -> datetime)
    (db db' : Db) :
  (forall l, get_all_stories uuid now db = Some (l, db') ->
     length l = Nat.min 1000 (length (stories db))) /\
  (forall l, get_status_checks uuid now db = Some (l, db') ->
     length l = Nat.min 1000 (length (status_checks db))).
Proof.
  split; intros l.
  - rewrite get_all_stories_eq.
    destruct (init_each _ _ _ _ _) as [l'|] eqn:E; [|done].
    intros [= <- _]. apply init_each_length in E.
    by rewrite E, length_take.
  - rewrite get_status_checks_eq.
    destruct (init_each _ _ _ _ _) as [l'|] eqn:E; [|done].
    intros [= <- _]. apply init_each_length in E.
    by rewrite E, length_take.
Qed.

Lemma listings_are_bounded_witness :
  exists l,
    get_all_stories (fun _ => lit "u") (fun _ => 0%Z)
      (mkDb []
         (Story_dict
            <$> replicate 1001
                  (sample_story (lit "Ada") 7 (lit "ocean") (lit "bedtime")
                     (lit "long") [])))
    = Some (l, mkDb []
                 (Story_dict
                    <$> replicate 1001
                          (sample_story (lit "Ada") 7 (lit "ocean")
                             (lit "bedtime") (lit "long") []))) /\
    length l = 1000%nat /\
    length (Story_dict
              <$> replicate 1001
                    (sample_story (lit "Ada") 7 (lit "ocean") (lit "bedtime")
                       (lit "long") [])) = 1001%nat.
Proof.
  pose proof (get_all_stories_dicts (fun _ => lit "u") (fun _ => 0%Z)
                (mkDb []
                   (Story_dict
                      <$> replicate 1001
                            (sample_story (lit "Ada") 7 (lit "ocean")
                               (lit "bedtime") (lit "long") [])))
                (replicate 1001
                   (sample_story (lit "Ada") 7 (lit "ocean") (lit "bedtime")
                      (lit "long") []))
                eq_refl) as E.
  eexists. split; [exact E|]. split.
  - rewrite (proj1 (listings_are_bounded _ _ _ _) _ E).
    cbn [stories]. rewrite length_fmap, length_replicate. reflexivity.
  - rewrite length_fmap, length_replicate. reflexivity.
Defined.

(** X9. A story created while the collection already holds 1000 documents
    or more is stored but does not show up in the listing: [get_all_stories]
    returns what it returned before. *)
Theorem create_story_beyond_page_not_listed (uuid : pystr) (now : datetime)
    (r : StoryCreate.t) (db : Db) (uuids : nat -> pystr)
    (nows : nat -> datetime) :
  (1000 <= length (stories db))%nat ->
  exists resp db',
    create_story uuid now r db = Some (resp, db') /\
    length (stories db') = S (length (stories db)) /\
    fst <$> get_all_stories uuids nows db'
    = fst <$> get_all_stories uuids nows db.
Proof.
  intros Hlen. eexists _, _. split; [apply create_story_eq|].
  split.
  - cbn [stories]. rewrite length_app. simpl. lia.
  - rewrite !get_all_stories_eq. cbn [stories].
    rewrite take_app_le by done.
    by destruct (init_each _ _ _ _ _).
Qed.

Lemma create_story_beyond_page_not_listed_witness :
  exists resp db',
    create_story (lit "u-1") 7%Z test_request
      (mkDb []
         (Story_dict
            <$> replicate 1000
                  (sample_story (lit "Ada") 7 (lit "ocean") (lit "bedtime")
                     (lit "long") [])))
    = Some (resp, db') /\
    length (stories db') = 1001%nat /\
    fst <$> get_all_stories (fun _ => lit "u") (fun _ => 0%Z) db'
    = Some (replicate 1000
              (sample_story (lit "Ada") 7 (lit "ocean") (lit "bedtime")
                 (lit "long") [])) /\
    fst <$> get_all_stories (fun _ => lit "u") (fun _ => 0%Z)
              (mkDb []
                 (Story_dict
                    <$> replicate 1000
                          (sample_story (lit "Ada") 7 (lit "ocean")
                             (lit "bedtime") (lit "long") [])))
    = Some (replicate 1000
              (sample_story (lit "Ada") 7 (lit "ocean") (lit "bedtime")
                 (lit "long") [])).
Proof.
  destruct (create_story_beyond_page_not_listed (lit "u-1") 7%Z test_request
              (mkDb []
                 (Story_dict
                    <$> replicate 1000
                          (sample_story (lit "Ada") 7 (lit "ocean")
                             (lit "bedtime") (lit "long") [])))
              (fun _ => lit "u") (fun _ => 0%Z))
    as (resp & db' & H1 & H2 & H3).
  - cbn [stories]. rewrite length_fmap, length_replicate. lia.
  - assert (E : fst <$> get_all_stories (fun _ => lit "u") (fun _ => 0%Z)
                          (mkDb []
                             (Story_dict
                                <$> replicate 1000
                                      (sample_story (lit "Ada") 7 (lit "ocean")
                                         (lit "bedtime") (lit "long") [])))
                = Some (replicate 1000
                          (sample_story (lit "Ada") 7 (lit "ocean")
                             (lit "bedtime") (lit "long") []))).
    { erewrite get_all_stories_dicts by reflexivity.
      rewrite take_replicate. reflexivity. }
    exists resp, db'. split; [exact H1|]. split.
    + rewrite H2. cbn [stories]. by rewrite length_fmap, length_replicate.
    + split; [by rewrite H3|exact E].
Defined.

(** X10. Below the page size the new story is listed last: when the stored
    documents are the dicts of fewer than 1000 stories [ss], the listing
    after a creation is [ss] followed by the created record, its creation
    time cut to the millisecond. *)
Theorem create_story_then_listed_last (uuid : pystr) (now : datetime)
    (r : StoryCreate.t) (db : Db) (ss : list Story.t) (uuids : nat -> pystr)
    (nows : nat -> datetime) :
  stories db = Story_dict <$> ss ->
  (length ss < 1000)%nat ->
  exists resp db' text,
    create_story uuid now r db = Some (resp, db') /\
    resp !! lit "story_content" = Some (VStr text) /\
    get_all_stories uuids nows db'
    = Some (ss ++ [Story.mk uuid (StoryCreate.kid_name r)
                     (StoryCreate.kid_age r) (StoryCreate.kid_photo r)
                     (StoryCreate.theme r) (StoryCreate.story_type r)
                     (StoryCreate.length r)
                     (StoryCreate.special_ingredients r) (bson_datetime now)
                     (Some text)],
            db').
Proof.
  intros E Hlen. eexists _, _, _. split; [apply create_story_eq|].
  split; [reflexivity|].
  erewrite get_all_stories_dicts.
  - rewrite take_ge; [reflexivity|]. rewrite length_app. simpl. lia.
  - cbn [stories]. by rewrite E, fmap_app.
Qed.

Lemma create_story_then_listed_last_witness :
  exists resp db' text,
    create_story (lit "u-1") 1700000000151321%Z test_request
      (mkDb []
         (Story_dict
            <$> [sample_story (lit "Ada") 7 (lit "ocean") (lit "bedtime")
                   (lit "long") []]))
    = Some (resp, db') /\
    resp !! lit "story_content" = Some (VStr text) /\
    get_all_stories (fun _ => lit "u") (fun _ => 0%Z) db'
    = Some ([sample_story (lit "Ada") 7 (lit "ocean") (lit "bedtime")
               (lit "long") []]
            ++ [Story.mk (lit "u-1") (lit "Test Kid") 5
                  (Some (lit "data:image/png;base64,iVBORw0KGgo="))
                  (lit "forest") (lit "adventure") (lit "short")
                  [lit "Magic spells"; lit "Talking animals"]
                  (bson_datetime 1700000000151321%Z) (Some text)],
            db').
Proof.
  apply (create_story_then_listed_last (lit "u-1") 1700000000151321%Z
           test_request
           (mkDb []
              (Story_dict
                 <$> [sample_story (lit "Ada") 7 (lit "ocean") (lit "bedtime")
                        (lit "long") []]))
           [sample_story (lit "Ada") 7 (lit "ocean") (lit "bedtime")
              (lit "long") []]).
  - reflexivity.
  - simpl. lia.
Defined.

Lemma Story_init_incomplete uuid now doc :
  lacks_required_field doc -> Story_init uuid now doc = None.
Proof.
  unfold lacks_required_field, Story_init, required_str, required_int.
  intros H.
  destruct (str_or_default doc (lit "id") uuid); [|done].
  cbn [mbind option_bind].
  destruct H as [H|H]; [by rewrite H|].
  destruct (doc !! lit "kid_name") as [[]|]; try done. cbn [mbind option_bind].
  destruct H as [H|H]; [by rewrite H|].
  destruct (doc !! lit "kid_age") as [[]|]; try done. cbn [mbind option_bind].
  destruct (optional_str doc (lit "kid_photo")); [|done].
  cbn [mbind option_bind].
  destruct H as [H|H]; [by rewrite H|].
  destruct (doc !! lit "theme") as [[]|]; try done. cbn [mbind option_bind].
  destruct H as [H|H]; [by rewrite H|].
  destruct (doc !! lit "story_type") as [[]|]; try done.
  cbn [mbind option_bind]. by rewrite H.
Qed.

(** X11. A stored document that has the requested id but lacks a field the
    model requires makes the lookup raise: [get_story] returns neither the
    error pair nor a story. *)
Theorem get_story_rejects_incomplete (uuid : pystr) (now : datetime)
    (story_id : pystr) (db : Db) (doc : gmap (list N) pyval) :
  stories_find_one story_id db = Some (Some doc, db) ->
  lacks_required_field doc ->
  get_story uuid now story_id db = None.
Proof.
  unfold stories_find_one. intros [= E] Hmiss. rewrite get_story_eq, E.
  apply find_some in E as [_ Hid]. unfold matches_id in Hid.
  apply bool_decide_eq_true_1 in Hid.
  rewrite bool_decide_eq_false_2.
  - by rewrite Story_init_incomplete.
  - intros ->. by rewrite lookup_empty in Hid.
Qed.

Lemma get_story_rejects_incomplete_witness :
  get_story (lit "u-2") 0%Z (lit "u-1")
    (mkDb [] [ {[ lit "id" := VStr (lit "u-1") ]} ]) = None.
Proof.
  apply (get_story_rejects_incomplete (lit "u-2") 0%Z (lit "u-1")
           (mkDb [] [ {[ lit "id" := VStr (lit "u-1") ]} ])
           {[ lit "id" := VStr (lit "u-1") ]}).
  - reflexivity.
  - left. reflexivity.
Defined.

(** X12. One such document among the first 1000 makes the whole listing
    raise, whatever the other documents are. *)
Theorem get_all_stories_rejects_incomplete (uuid : nat -> pystr)
    (now : nat -> datetime) (db : Db) (doc : gmap (list N) pyval) :
  In doc (take 1000 (stories db)) ->
  lacks_required_field doc ->
  get_all_stories uuid now db = None.
Proof.
  intros Hin Hmiss. rewrite get_all_stories_eq.
  rewrite (init_each_rejected Story_init uuid now 0 _ doc); [done| |done].
  intros u n. by apply Story_init_incomplete.
Qed.

Lemma get_all_stories_rejects_incomplete_witness :
  get_all_stories (fun _ => lit "u") (fun _ => 0%Z)
    (mkDb [] [ Story_dict (story_of_request (lit "u-1") 7%Z test_request);
               {[ lit "id" := VStr (lit "u-2") ]} ]) = None.
Proof.
  apply (get_all_stories_rejects_incomplete (fun _ => lit "u") (fun _ => 0%Z)
           (mkDb [] [ Story_dict (story_of_request (lit "u-1") 7%Z test_request);
                      {[ lit "id" := VStr (lit "u-2") ]} ])
           {[ lit "id" := VStr (lit "u-2") ]}).
  - cbn [stories take]. right. left. reflexivity.
  - left. reflexivity.
Defined.

(** X13. A status check always gets created: the endpoint returns the
    object with the client's name, the new id and the timestamp, appends
    its dict to [db.status_checks] with the timestamp cut to the
    millisecond, and leaves [db.stories] alone. When the collection held
    the dicts of fewer than 1000 status checks [cs], the listing afterwards
    is [cs] followed by the new object as the store kept it: the listed
    timestamp is the cut one, not the one the creation returned. *)
Theorem create_status_check_then_listed (uuid : pystr) (now : datetime)
    (c : StatusCheckCreate.t) (db : Db) (cs : list StatusCheck.t)
    (uuids : nat -> pystr) (nows : nat -> datetime) :
  status_checks db = StatusCheck_dict <$> cs ->
  (length cs < 1000)%nat ->
  let obj := StatusCheck.mk uuid (StatusCheckCreate.client_name c) now in
  let kept :=
    StatusCheck.mk uuid (StatusCheckCreate.client_name c) (bson_datetime now) in
  exists db',
    create_status_check uuid now c db = Some (obj, db') /\
    status_checks db' = status_checks db ++ [StatusCheck_dict kept] /\
    stories db' = stories db /\
    get_status_checks uuids nows db' = Some (cs ++ [kept], db').
Proof.
  intros E Hlen obj kept. eexists. split; [apply create_status_check_eq|].
  split; [reflexivity|]. split; [reflexivity|].
  rewrite get_status_checks_eq. cbn [status_checks].
  rewrite E.
  replace ((StatusCheck_dict <$> cs)
           ++ [StatusCheck_dict
                 (stored_status_check
                    (StatusCheck.mk uuid (StatusCheckCreate.client_name c) now))])
    with (StatusCheck_dict <$> (cs ++ [kept])) by (by rewrite fmap_app).
  rewrite <- fmap_take.
  rewrite init_each_fmap by (intros; apply StatusCheck_init_dict).
  rewrite take_ge; [reflexivity|]. rewrite length_app. simpl. lia.
Qed.

Lemma create_status_check_then_listed_witness :
  exists db',
    create_status_check (lit "u-2") 1700000000151321%Z
      (StatusCheckCreate.mk (lit "kiosk"))
      (mkDb (StatusCheck_dict
               <$> [StatusCheck.mk (lit "u-1") (lit "desk") 1700000000000000%Z])
         [])
    = Some (StatusCheck.mk (lit "u-2") (lit "kiosk") 1700000000151321%Z, db') /\
    get_status_checks (fun _ => lit "u") (fun _ => 0%Z) db'
    = Some ([StatusCheck.mk (lit "u-1") (lit "desk") 1700000000000000%Z;
             StatusCheck.mk (lit "u-2") (lit "kiosk") 1700000000151000%Z],
            db').
Proof.
  destruct (create_status_check_then_listed (lit "u-2") 1700000000151321%Z
              (StatusCheckCreate.mk (lit "kiosk"))
              (mkDb (StatusCheck_dict
                       <$> [StatusCheck.mk (lit "u-1") (lit "desk")
                              1700000000000000%Z])
                 [])
              [StatusCheck.mk (lit "u-1") (lit "desk") 1700000000000000%Z]
              (fun _ => lit "u") (fun _ => 0%Z))
    as (db' & H1 & _ & _ & H4).
  - reflexivity.
  - simpl. lia.
  - exists db'. split; [exact H1|exact H4].
Defined.

(** X14. The two collections do not interfere: creating a story changes no
    status listing, and creating a status check changes neither a story
    lookup nor the story listing. *)
Theorem collections_are_independent (uuid : pystr) (now : datetime) (db : Db)
    (uuids : nat -> pystr) (nows : nat -> datetime) :
  (forall r, exists resp db',
     create_story uuid now r db = Some (resp, db') /\
     fst <$> get_status_checks uuids nows db'
     = fst <$> get_status_checks uuids nows db) /\
  (forall c, exists obj db',
     create_status_check uuid now c db = Some (obj, db') /\
     (forall uuid' now' story_id,
        fst <$> get_story uuid' now' story_id db'
        = fst <$> get_story uuid' now' story_id db) /\
     fst <$> get_all_stories uuids nows db'
     = fst <$> get_all_stories uuids nows db).
Proof.
  split.
  - intros r. eexists _, _. split; [apply create_story_eq|].
    rewrite !get_status_checks_eq. cbn [status_checks].
    by destruct (init_each _ _ _ _ _).
  - intros c. eexists _, _. split; [apply create_status_check_eq|]. split.
    + intros uuid' now' story_id. rewrite !get_story_eq. cbn [stories].
      destruct (find (matches_id story_id) (stories db)) as [doc|]; [|done].
      destruct (bool_decide (doc = ∅)); [done|].
      by destruct (Story_init uuid' now' doc).
    + rewrite !get_all_stories_eq. cbn [stories].
      by destruct (init_each _ _ _ _ _).
Qed.

(** * Further properties of the renderer *)

(** X15. The renderer reads six fields only: two records with the same
    name, age, theme, story type, length and ingredients are rendered to
    the same text, whatever their id, photo, creation time and stored
    content. *)
Theorem render_reads_six_fields (s1 s2 : Story.t) :
  Story.kid_name s1 = Story.kid_name s2 ->
  Story.kid_age s1 = Story.kid_age s2 ->
  Story.theme s1 = Story.theme s2 ->
  Story.story_type s1 = Story.story_type s2 ->
  Story.length s1 = Story.length s2 ->
  Story.special_ingredients s1 = Story.special_ingredients s2 ->
  generate_story_content s1 = generate_story_content s2.
Proof.
  intros Hn Ha Ht Hty Hl Hi. rewrite !generate_story_content_eq.
  unfold setting_of, story_length_desc_of, ingredients_text_of.
  by rewrite Hn, Ha, Ht, Hty, Hl, Hi.
Qed.

Lemma render_reads_six_fields_witness :
  generate_story_content
    (Story.mk (lit "id-1") (lit "Ada") 7 None (lit "ocean") (lit "bedtime")
       (lit "long") [lit "Kites"] 1%Z None)
  = generate_story_content
      (Story.mk (lit "id-2") (lit "Ada") 7 (Some (lit "photo")) (lit "ocean")
         (lit "bedtime") (lit "long") [lit "Kites"] 2%Z (Some (lit "old text"))).
Proof.
  apply (render_reads_six_fields
           (Story.mk (lit "id-1") (lit "Ada") 7 None (lit "ocean")
              (lit "bedtime") (lit "long") [lit "Kites"] 1%Z None)
           (Story.mk (lit "id-2") (lit "Ada") 7 (Some (lit "photo"))
              (lit "ocean") (lit "bedtime") (lit "long") [lit "Kites"] 2%Z
              (Some (lit "old text"))));
    reflexivity.
Defined.

(** X16. Unrecognized keys cannot be told apart in the text: two themes
    that are both missing from the theme table give the same text, and so
    do two lengths that are both missing from the pacing table. *)
Theorem unrecognized_keys_render_alike (id kid_name : pystr) (kid_age : Z)
    (kid_photo : option pystr) (story_type : pystr)
    (special_ingredients : list pystr) (created_at : datetime)
    (story_content : option pystr) :
  (forall theme1 theme2 length,
     ~ recognized_theme theme1 -> ~ recognized_theme theme2 ->
     generate_story_content
       (Story.mk id kid_name kid_age kid_photo theme1 story_type length
          special_ingredients created_at story_content)
     = generate_story_content
         (Story.mk id kid_name kid_age kid_photo theme2 story_type length
            special_ingredients created_at story_content)) /\
  (forall theme length1 length2,
     ~ recognized_length length1 -> ~ recognized_length length2 ->
     generate_story_content
       (Story.mk id kid_name kid_age kid_photo theme story_type length1
          special_ingredients created_at story_content)
     = generate_story_content
         (Story.mk id kid_name kid_age kid_photo theme story_type length2
            special_ingredients created_at story_content)).
Proof.
  unfold recognized_theme, recognized_length. split.
  - intros t1 t2 l H1 H2. rewrite !generate_story_content_eq.
    unfold setting_of, dict_get. cbn [Story.theme].
    apply eq_None_not_Some in H1, H2. by rewrite H1, H2.
  - intros t l1 l2 H1 H2. rewrite !generate_story_content_eq.
    unfold story_length_desc_of, dict_get. cbn [Story.length].
    apply eq_None_not_Some in H1, H2. by rewrite H1, H2.
Qed.

Lemma unrecognized_keys_render_alike_witness :
  generate_story_content
    (Story.mk (lit "id-1") (lit "Ada") 7 None (lit "volcano") (lit "bedtime")
       (lit "long") [] 0%Z None)
  = generate_story_content
      (Story.mk (lit "id-1") (lit "Ada") 7 None (lit "Forest") (lit "bedtime")
         (lit "long") [] 0%Z None).
Proof.
  apply (proj1 (unrecognized_keys_render_alike (lit "id-1") (lit "Ada") 7
                  None (lit "bedtime") [] 0%Z None)
           (lit "volcano") (lit "Forest") (lit "long"));
    unfold recognized_theme; vm_compute; intros [x H]; discriminate.
Defined.

(** X17. The list of ingredients cannot always be read back from the
    text: two ingredients render like the single ingredient made of both
    with ", " in between, and no ingredients render like the single
    ingredient "special surprises". *)
Theorem ingredients_render_alike (id kid_name : pystr) (kid_age : Z)
    (kid_photo : option pystr) (theme story_type length : pystr)
    (created_at : datetime) (story_content : option pystr) :
  (forall x y rest,
     generate_story_content
       (Story.mk id kid_name kid_age kid_photo theme story_type length
          (x :: y :: rest) created_at story_content)
     = generate_story_content
         (Story.mk id kid_name kid_age kid_photo theme story_type length
            ((x ++ lit ", " ++ y) :: rest) created_at story_content)) /\
  generate_story_content
    (Story.mk id kid_name kid_age kid_photo theme story_type length
       [] created_at story_content)
  = generate_story_content
      (Story.mk id kid_name kid_age kid_photo theme story_type length
         [lit "special surprises"] created_at story_content).
Proof.
  split; [|reflexivity].
  intros x y rest. rewrite !generate_story_content_eq.
  unfold ingredients_text_of. cbn [Story.special_ingredients].
  f_equal. rewrite join_cons2. destruct rest as [|z rest].
  - reflexivity.
  - rewrite !join_cons2. by rewrite <- !app_assoc.
Qed.

Lemma theme_settings_lookup theme phrase :
  theme_settings !! theme = Some phrase ->
  (theme, phrase) ∈
    [ (lit "fairy", lit "in an enchanted fairy kingdom with magical powers");
      (lit "dinosaur", lit "in prehistoric times with friendly dinosaurs");
      (lit "castle",
       lit "in a grand castle with brave knights and wise princesses");
      (lit "ocean", lit "in the depths of the ocean with colorful sea creatures");
      (lit "space", lit "on an exciting journey through the stars and planets");
      (lit "forest",
       lit "deep in a magical forest filled with talking animals") ].
Proof.
  unfold theme_settings. intros H.
  repeat (apply lookup_insert_Some in H as [[<- <-]|[_ H]];
          [set_solver|]).
  by rewrite lookup_empty in H.
Qed.

Lemma length_pages_lookup length phrase :
  length_pages !! length = Some phrase ->
  (length, phrase) ∈
    [ (lit "long", lit "an epic and detailed");
      (lit "medium", lit "a wonderful");
      (lit "short", lit "a quick but exciting") ].
Proof.
  unfold length_pages. intros H.
  repeat (apply lookup_insert_Some in H as [[<- <-]|[_ H]];
          [set_solver|]).
  by rewrite lookup_empty in H.
Qed.

(** Two different keys of a table never share their phrase. *)
Lemma theme_settings_apart t1 t2 p :
  theme_settings !! t1 = Some p -> theme_settings !! t2 = Some p -> t1 = t2.
Proof.
  intros H1%theme_settings_lookup H2%theme_settings_lookup.
  repeat (apply elem_of_cons in H1 as [H1|H1]);
    [apply pair_equal_spec in H1 as [-> ->] ..|by apply elem_of_nil in H1];
    (repeat (apply elem_of_cons in H2 as [H2|H2]);
     [apply pair_equal_spec in H2 as [-> E] ..|by apply elem_of_nil in H2];
     first [reflexivity | vm_compute in E; discriminate]).
Qed.

Lemma length_pages_apart l1 l2 p :
  length_pages !! l1 = Some p -> length_pages !! l2 = Some p -> l1 = l2.
Proof.
  intros H1%length_pages_lookup H2%length_pages_lookup.
  repeat (apply elem_of_cons in H1 as [H1|H1]);
    [apply pair_equal_spec in H1 as [-> ->] ..|by apply elem_of_nil in H1];
    (repeat (apply elem_of_cons in H2 as [H2|H2]);
     [apply pair_equal_spec in H2 as [-> E] ..|by apply elem_of_nil in H2];
     first [reflexivity | vm_compute in E; discriminate]).
Qed.

(** The text determines the setting and the pacing phrase once the other
    five interpolated values are fixed. *)
Lemma story_text_inj_setting n a st1 st2 d i ty :
  story_text n a st1 d i ty = story_text n a st2 d i ty -> st1 = st2.
Proof.
  unfold story_text. intros H.
  do 11 apply app_inv_head in H. by apply app_inv_tail in H.
Qed.

Lemma story_text_inj_desc n a st d1 d2 i ty :
  story_text n a st d1 i ty = story_text n a st d2 i ty -> d1 = d2.
Proof.
  unfold story_text. intros H.
  do 13 apply app_inv_head in H. by apply app_inv_tail in H.
Qed.

(** X18. Recognized keys can be told apart in the text: two records that
    differ only in their theme, both themes being keys of the theme table,
    are rendered to different texts; likewise for two different keys of
    the pacing table. *)
Theorem recognized_keys_render_apart (id kid_name : pystr) (kid_age : Z)
    (kid_photo : option pystr) (story_type : pystr)
    (special_ingredients : list pystr) (created_at : datetime)
    (story_content : option pystr) :
  (forall theme1 theme2 length,
     recognized_theme theme1 -> recognized_theme theme2 ->
     theme1 <> theme2 ->
     generate_story_content
       (Story.mk id kid_name kid_age kid_photo theme1 story_type length
          special_ingredients created_at story_content)
     <> generate_story_content
          (Story.mk id kid_name kid_age kid_photo theme2 story_type length
             special_ingredients created_at story_content)) /\
  (forall theme length1 length2,
     recognized_length length1 -> recognized_length length2 ->
     length1 <> length2 ->
     generate_story_content
       (Story.mk id kid_name kid_age kid_photo theme story_type length1
          special_ingredients created_at story_content)
     <> generate_story_content
          (Story.mk id kid_name kid_age kid_photo theme story_type length2
             special_ingredients created_at story_content)).
Proof.
  unfold recognized_theme, recognized_length. split.
  - intros t1 t2 l [p1 H1] [p2 H2] Hne. rewrite !generate_story_content_eq.
    intros E. apply story_text_inj_setting in E.
    unfold setting_of, dict_get in E. cbn [Story.theme] in E.
    rewrite H1, H2 in E. change (p1 = p2) in E. subst p2.
    apply Hne. by apply (theme_settings_apart t1 t2 p1).
  - intros t l1 l2 [p1 H1] [p2 H2] Hne. rewrite !generate_story_content_eq.
    intros E. apply story_text_inj_desc in E.
    unfold story_length_desc_of, dict_get in E. cbn [Story.length] in E.
    rewrite H1, H2 in E. change (p1 = p2) in E. subst p2.
    apply Hne. by apply (length_pages_apart l1 l2 p1).
Qed.

Lemma recognized_keys_render_apart_witness :
  generate_story_content
    (Story.mk (lit "id-1") (lit "Ada") 7 None (lit "ocean") (lit "bedtime")
       (lit "long") [] 0%Z None)
  <> generate_story_content
       (Story.mk (lit "id-1") (lit "Ada") 7 None (lit "space") (lit "bedtime")
          (lit "long") [] 0%Z None).
Proof.
  apply (proj1 (recognized_keys_render_apart (lit "id-1") (lit "Ada") 7
                  None (lit "bedtime") [] 0%Z None)
           (lit "ocean") (lit "space") (lit "long")).
  - unfold recognized_theme. vm_compute. eexists. reflexivity.
  - unfold recognized_theme. vm_compute. eexists. reflexivity.
  - vm_compute. discriminate.
Defined.

(** X19. Every interpolated value is embedded whole: the length of the
    text is 365 characters of fixed wording plus the lengths of the setting,
    the pacing phrase, the ingredients text, the story type and the digits
    of the age, plus four times the length of the name. *)
Theorem render_length (story : Story.t) :
  length (generate_story_content story)
  = (365 + 4 * length (Story.kid_name story)
     + length (str_of_int (Story.kid_age story))
     + length (setting_of story) + length (story_length_desc_of story)
     + length (ingredients_text_of story)
     + length (Story.story_type story))%nat.
Proof.
  rewrite generate_story_content_eq. unfold story_text.
  rewrite !length_app.
  repeat match goal with
         | |- context [length (lit ?s)] =>
             let n := eval vm_compute in (length (lit s)) in
             change (length (lit s)) with n
         end.
  change (length NL) with 1%nat. lia.
Qed.

(** X20. The age is not range-checked: a negative age is written into the
    text with its minus sign. *)
Theorem render_negative_age (story : Story.t) :
  (Story.kid_age story < 0)%Z ->
  contains (lit " who was -") (generate_story_content story) = true.
Proof.
  intros Hneg. rewrite generate_story_content_eq. unfold story_text.
  destruct (Story.kid_age story) as [|p|p]; [lia..|].
  do 2 apply contains_skip.
  change (str_of_int (Z.neg p)) with ([45] ++ str_of_int (Z.pos p)).
  rewrite (app_assoc (lit " who was ")), (app_assoc (lit " who was ") [45]).
  change (lit " who was " ++ [45]) with (lit " who was -").
  rewrite <- app_assoc. apply contains_here.
Qed.

Lemma render_negative_age_witness :
  contains (lit " who was -")
    (generate_story_content
       (sample_story (lit "Ada") (-3) (lit "ocean") (lit "bedtime") (lit "long")
          []))
  = true.
Proof.
  apply (render_negative_age
           (sample_story (lit "Ada") (-3) (lit "ocean") (lit "bedtime")
              (lit "long") [])).
  simpl. lia.
Defined.

(** * Lookups on any database *)

Lemma Story_init_id uuid now doc story_id s :
  doc !! lit "id" = Some (VStr story_id) ->
  Story_init uuid now doc = Some s -> Story.id s = story_id.
Proof.
  unfold Story_init, str_or_default. intros ->. cbn [mbind option_bind].
  destruct (required_str doc (lit "kid_name")); [|done].
  cbn [mbind option_bind].
  destruct (required_int doc (lit "kid_age")); [|done].
  cbn [mbind option_bind].
  destruct (optional_str doc (lit "kid_photo")); [|done].
  cbn [mbind option_bind].
  destruct (required_str doc (lit "theme")); [|done].
  cbn [mbind option_bind].
  destruct (required_str doc (lit "story_type")); [|done].
  cbn [mbind option_bind].
  destruct (required_str doc (lit "length")); [|done].
  cbn [mbind option_bind].
  destruct (str_list_or_empty doc (lit "special_ingredients")); [|done].
  cbn [mbind option_bind].
  destruct (datetime_or_default doc (lit "created_at") now); [|done].
  cbn [mbind option_bind].
  destruct (optional_str doc (lit "story_content")); [|done].
  cbn [mbind option_bind]. by intros [= <-].
Qed.

Lemma find_matches_id (story_id : list N)
    (docs : list (gmap (list N) pyval)) doc :
  find (matches_id story_id) docs = Some doc ->
  doc !! lit "id" = Some (VStr story_id) /\ doc <> ∅.
Proof.
  intros [_ Hid]%find_some. unfold matches_id in Hid.
  apply bool_decide_eq_true_1 in Hid. split; [done|].
  intros ->. by rewrite lookup_empty in Hid.
Qed.

(** X21. The error pair means absence and nothing else: in a collection
    where no document has an array with the requested id as its [id],
    [get_story] returns the error pair exactly when no stored document has
    the requested id. *)
Theorem get_story_error_iff_absent (uuid : pystr) (now : datetime)
    (story_id : pystr) (db : Db) :
  (forall doc l, In doc (stories db) ->
     doc !! lit "id" = Some (VStrList l) -> ~ In story_id l) ->
  (exists body code db',
     get_story uuid now story_id db = Some (ErrorPair body code, db'))
  <-> (forall doc, In doc (stories db) -> ~ filter_matches story_id doc).
Proof.
  intros Harr. split.
  - rewrite get_story_eq.
    destruct (find (matches_id story_id) (stories db)) as [doc|] eqn:E.
    + apply find_matches_id in E as [_ Hne].
      rewrite bool_decide_eq_false_2 by done.
      intros (body & code & db' & H).
      by destruct (Story_init uuid now doc).
    + intros _ doc Hin. rewrite find_none_iff in E.
      unfold filter_matches.
      destruct (doc !! lit "id") as [[| s | | l |]|] eqn:Ed; try tauto.
      * intros ->. by apply (E doc).
      * by apply (Harr doc).
  - intros Hmiss. rewrite get_story_eq, (find_none_filter _ _ Hmiss). eauto.
Qed.

Lemma get_story_error_iff_absent_witness :
  (exists body code db',
     get_story (lit "u-2") 0%Z (lit "absent")
       (mkDb []
          [Story_dict (sample_story (lit "Ada") 7 (lit "ocean") (lit "bedtime")
                         (lit "long") [])])
     = Some (ErrorPair body code, db'))
  <-> (forall doc,
         In doc [Story_dict (sample_story (lit "Ada") 7 (lit "ocean")
                               (lit "bedtime") (lit "long") [])] ->
         ~ filter_matches (lit "absent") doc).
Proof.
  apply (get_story_error_iff_absent (lit "u-2") 0%Z (lit "absent")
           (mkDb []
              [Story_dict (sample_story (lit "Ada") 7 (lit "ocean")
                             (lit "bedtime") (lit "long") [])])).
  intros doc l [<-|[]] E. vm_compute in E. discriminate.
Defined.

(** X22. Whatever the collection holds, a story that a lookup returns
    carries the id that was asked for. *)
Theorem get_story_returns_requested_id (uuid : pystr) (now : datetime)
    (story_id : pystr) (db db' : Db) (s : Story.t) :
  get_story uuid now story_id db = Some (FoundStory s, db') ->
  Story.id s = story_id.
Proof.
  rewrite get_story_eq.
  destruct (find (matches_id story_id) (stories db)) as [doc|] eqn:E; [|done].
  apply find_matches_id in E as [Hid Hne].
  rewrite bool_decide_eq_false_2 by done.
  destruct (Story_init uuid now doc) as [s'|] eqn:Es; [|done].
  intros [= <- _]. by apply (Story_init_id uuid now doc).
Qed.

Lemma get_story_returns_requested_id_witness :
  Story.id (story_of_request (lit "u-1") 7%Z test_request) = lit "u-1".
Proof.
  apply (get_story_returns_requested_id (lit "u-2") 0%Z (lit "u-1")
           (mkDb [] [Story_dict (story_of_request (lit "u-1") 7%Z test_request)])
           (mkDb [] [Story_dict (story_of_request (lit "u-1") 7%Z test_request)])).
  vm_compute. reflexivity.
Defined.

(** X23. Lookups on a collection of stories: when the stored documents are
    the dicts of the stories [ss], a lookup returns the first story of [ss]
    with the requested id (an older story shadows a later one with the same
    id) and the error pair when there is none. *)
Theorem get_story_first_match (uuid : pystr) (now : datetime)
    (story_id : pystr) (db : Db) (ss : list Story.t) :
  stories db = Story_dict <$> ss ->
  get_story uuid now story_id db
  = Some (match find (fun s => bool_decide (Story.id s = story_id)) ss with
          | Some s => FoundStory s
          | None =>
              ErrorPair {[ lit "error" := VStr (lit "Story not found") ]} 404%Z
          end, db).
Proof.
  intros E. rewrite get_story_eq, E. clear E.
  induction ss as [|s ss IH]; [reflexivity|].
  cbn [fmap list_fmap find].
  assert (Hm : matches_id story_id (Story_dict s)
               = bool_decide (Story.id s = story_id)).
  { unfold matches_id. rewrite Story_dict_id.
    apply bool_decide_ext. split; [by intros [= ->]|by intros ->]. }
  rewrite Hm. destruct (bool_decide (Story.id s = story_id)); [|exact IH].
  rewrite bool_decide_eq_false_2 by apply Story_dict_nonempty.
  by rewrite Story_init_dict.
Qed.

Lemma get_story_first_match_witness :
  get_story (lit "u-2") 0%Z (lit "u-1")
    (mkDb []
       [Story_dict (sample_story (lit "Ada") 7 (lit "ocean") (lit "bedtime")
                      (lit "long") []);
        Story_dict (sample_story (lit "Bob") 8 (lit "space") (lit "bedtime")
                      (lit "long") [])])
  = Some (match
            find (fun s => bool_decide (Story.id s = lit "u-1"))
              [sample_story (lit "Ada") 7 (lit "ocean") (lit "bedtime")
                 (lit "long") [];
               sample_story (lit "Bob") 8 (lit "space") (lit "bedtime")
                 (lit "long") []]
          with
          | Some s => FoundStory s
          | None =>
              ErrorPair {[ lit "error" := VStr (lit "Story not found") ]} 404%Z
          end,
          mkDb []
            [Story_dict (sample_story (lit "Ada") 7 (lit "ocean") (lit "bedtime")
                           (lit "long") []);
             Story_dict (sample_story (lit "Bob") 8 (lit "space") (lit "bedtime")
                           (lit "long") [])]).
Proof.
  apply (get_story_first_match (lit "u-2") 0%Z (lit "u-1")
           (mkDb []
              [Story_dict (sample_story (lit "Ada") 7 (lit "ocean")
                             (lit "bedtime") (lit "long") []);
               Story_dict (sample_story (lit "Bob") 8 (lit "space")
                             (lit "bedtime") (lit "long") [])])).
  reflexivity.
Defined.
